(** * CustomerDataExtractor: a shallow embedding of [customer_data_extractor.py]

    The development follows the Python source top to bottom: the values a
    pickle can hold, the exceptions the built-ins raise, the two value
    parsers, the VIP loader of [load_data], and [transform] with the four
    pandas operations it ends with.

    Conventions.
    - A Python [str] is a [string]: a sequence of code points below 256.
    - A Python [int] is a [Z]; a Python [float] is a binary64 value of
      [SpecFloat] ([prec = 53], [emax = 1024], one NaN).
    - A call that can raise returns a [result]; [try]/[except] is
      [try_except]. *)

From Stdlib Require Import ZArith List String Ascii Bool Lia.
From Stdlib Require Import Floats.SpecFloat.
From Stdlib Require Import Sorting.Permutation Sorting.Sorted.
From stdpp Require Import base decidable option list gmap strings pretty sorting.

Local Open Scope string_scope.
Local Open Scope list_scope.
Local Open Scope Z_scope.

(** ** Exceptions and results *)

Inductive exn : Type :=
  | ValueError
  | TypeError
  | AttributeError
  | OverflowError
  | ZeroDivisionError
  | KeyError
  | RuntimeError.

Inductive result (A : Type) : Type :=
  | Ok (a : A)
  | Raise (e : exn).
Arguments Ok {A} a.
Arguments Raise {A} e.

#[global] Instance exn_eq_dec : EqDecision exn.
Proof. solve_decision. Defined.

#[global] Instance result_ret : MRet result := fun _ a => Ok a.
#[global] Instance result_bind : MBind result := fun _ _ f m =>
  match m with
  | Ok a => f a
  | Raise e => Raise e
  end.

(** [try: m except handled: fallback]. An exception outside [handled]
    propagates. *)
Definition try_except {A} (m : result A) (handled : list exn) (fallback : A)
  : result A :=
  match m with
  | Ok a => Ok a
  | Raise e => if bool_decide (e ∈ handled) then Ok fallback else Raise e
  end.

(** [for x in xs: body], collecting the values in order and stopping at the
    first exception. *)
Fixpoint for_each {A B} (body : A -> result B) (xs : list A) : result (list B) :=
  match xs with
  | [] => Ok []
  | x :: xs' =>
      y ← body x;
      ys ← for_each body xs';
      Ok (y :: ys)
  end.

(** ** Floats: binary64 *)

Definition float : Type := spec_float.

Definition prec : Z := 53.
Definition emax : Z := 1024.

Definition fadd : float -> float -> float := SFadd prec emax.
Definition fmul : float -> float -> float := SFmul prec emax.
Definition fdiv : float -> float -> float := SFdiv prec emax.
Definition fltb : float -> float -> bool := SFltb.
Definition feqb : float -> float -> bool := SFeqb.

#[global] Instance float_eq_dec : EqDecision float.
Proof. solve_decision. Defined.

Definition fzero : float := S754_zero false.
Definition fnan : float := S754_nan.

(** [float(n)] for a Python int: round to nearest, ties to even;
    [OverflowError] when the integer is beyond the largest double. *)
Definition float_of_int (n : Z) : result float :=
  match binary_normalize prec emax n 0 false with
  | S754_infinity _ => Raise OverflowError
  | f => Ok f
  end.

(** The value [(-1)^neg * m * 10^e], correctly rounded. *)
Definition float_of_decimal (neg : bool) (m : Z) (e : Z) : float :=
  match m with
  | Zpos p =>
      if 0 <=? e
      then binary_normalize prec emax (cond_Zopp neg (Zpos p * 10 ^ e)) 0 false
      else match 10 ^ (- e) with
           | Zpos d => fdiv (S754_finite neg p 0) (S754_finite false d 0)
           | _ => S754_zero neg
           end
  | _ => S754_zero neg
  end.

(** ** Characters and strings *)

Definition code (c : ascii) : Z := Z.of_N (N_of_ascii c).

Definition is_ascii_digit (c : ascii) : bool :=
  (48 <=? code c) && (code c <=? 57).

Definition digit_value (c : ascii) : Z := code c - 48.

(** [str.isspace] on code points below 256: the characters [str.strip]
    removes. *)
Definition py_isspace (c : ascii) : bool :=
  let n := code c in
  ((9 <=? n) && (n <=? 13)) || ((28 <=? n) && (n <=? 32))
  || (n =? 133) || (n =? 160).

(** The blanks [int] and [float] skip around a literal: the ASCII ones, and
    NEL and NBSP, which are first turned into a space. *)
Definition is_blank (c : ascii) : bool :=
  let n := code c in
  ((9 <=? n) && (n <=? 13)) || (n =? 32) || (n =? 133) || (n =? 160).

(** A character with the Unicode digit property: the ten decimal digits and
    the superscripts two, three and one. *)
Definition is_digit_char (c : ascii) : bool :=
  let n := code c in
  is_ascii_digit c || (n =? 178) || (n =? 179) || (n =? 185).

Definition chars (s : string) : list ascii := list_ascii_of_string s.
Definition of_chars (l : list ascii) : string := string_of_list_ascii l.

Fixpoint drop_while {A} (p : A -> bool) (l : list A) : list A :=
  match l with
  | [] => []
  | x :: l' => if p x then drop_while p l' else l
  end.

Definition trim {A} (p : A -> bool) (l : list A) : list A :=
  rev (drop_while p (rev (drop_while p l))).

(** [s.strip()] *)
Definition strip (s : string) : string := of_chars (trim py_isspace (chars s)).

(** [s.replace(old, new)] for a one-character [old]. *)
Definition replace (old : ascii) (new : string) (s : string) : string :=
  of_chars (concat (map (fun c => if Ascii.eqb c old then chars new else [c]) (chars s))).

(** [s.isdigit()] *)
Definition isdigit (s : string) : bool :=
  match chars s with
  | [] => false
  | cs => forallb is_digit_char cs
  end.

(** *** Integer and float literals *)

Definition underscore : ascii := "_"%char.

(** An underscore of a numeric literal stands between two digits. *)
Fixpoint underscores_ok (prev_digit : bool) (cs : list ascii) : bool :=
  match cs with
  | [] => true
  | c :: cs' =>
      if Ascii.eqb c underscore
      then prev_digit
           && match cs' with d :: _ => is_ascii_digit d | [] => false end
           && underscores_ok false cs'
      else underscores_ok (is_ascii_digit c) cs'
  end.

Definition drop_underscores (cs : list ascii) : list ascii :=
  List.filter (fun c => negb (Ascii.eqb c underscore)) cs.

Definition digits_value (cs : list ascii) : Z :=
  fold_left (fun acc c => 10 * acc + digit_value c) cs 0.

Definition all_digits (cs : list ascii) : bool :=
  match cs with
  | [] => false
  | _ => forallb is_ascii_digit cs
  end.

Definition split_sign (cs : list ascii) : bool * list ascii :=
  match cs with
  | "-"%char :: r => (true, r)
  | "+"%char :: r => (false, r)
  | _ => (false, cs)
  end.

(** [int(s)] for a string, base 10. (The limit CPython 3.11 puts on the
    number of digits is left out; it raises the same [ValueError].) *)
Definition int_of_str (s : string) : result Z :=
  let '(neg, body) := split_sign (trim is_blank (chars s)) in
  if underscores_ok false body && all_digits (drop_underscores body)
  then Ok (cond_Zopp neg (digits_value (drop_underscores body)))
  else Raise ValueError.

Definition to_lower (c : ascii) : ascii :=
  if (65 <=? code c) && (code c <=? 90)
  then ascii_of_N (N_of_ascii c + 32)
  else c.

Fixpoint take_while {A} (p : A -> bool) (l : list A) : list A :=
  match l with
  | [] => []
  | x :: l' => if p x then x :: take_while p l' else []
  end.

(** The literal [digits [. digits] [(e|E) [sign] digits]] with at least one
    mantissa digit: the decimal mantissa and exponent it denotes. *)
Definition decimal_literal (cs : list ascii) : option (Z * Z) :=
  let ip := take_while is_ascii_digit cs in
  let r1 := drop_while is_ascii_digit cs in
  let '(fp, r2) :=
    match r1 with
    | "."%char :: r => (take_while is_ascii_digit r, drop_while is_ascii_digit r)
    | _ => ([], r1)
    end in
  match (ip ++ fp)%list with
  | [] => None
  | mant =>
      let m := digits_value mant in
      let scale := Z.of_nat (length fp) in
      match r2 with
      | [] => Some (m, - scale)
      | c :: r =>
          if Ascii.eqb (to_lower c) "e"%char
          then let '(eneg, ds) := split_sign r in
               if all_digits ds
               then Some (m, cond_Zopp eneg (digits_value ds) - scale)
               else None
          else None
      end
  end.

(** [float(s)] for a string. *)
Definition float_of_str (s : string) : result float :=
  let cs := trim is_blank (chars s) in
  if underscores_ok false cs then
    let '(neg, body) := split_sign (drop_underscores cs) in
    let word := of_chars (map to_lower body) in
    if String.eqb word "inf" || String.eqb word "infinity"
    then Ok (S754_infinity neg)
    else if String.eqb word "nan" then Ok S754_nan
    else match decimal_literal body with
         | Some (m, e) => Ok (float_of_decimal neg m e)
         | None => Raise ValueError
         end
  else Raise ValueError.

(** *** [str] and [repr] of numbers *)

(** [str(n)] for an int. *)
Definition str_of_int (n : Z) : string := pretty n.

Section FloatRepr.
(** The finite positive value [m * 2^e] as the fraction [num / den]. *)
Variables (m : positive) (e : Z).

Definition num : Z := if 0 <=? e then Zpos m * 2 ^ e else Zpos m.
Definition den : Z := if 0 <=? e then 1 else 2 ^ (- e).

(** [10^j <= m * 2^e] *)
Definition ge_pow10 (j : Z) : bool :=
  if 0 <=? j then den * 10 ^ j <=? num else den <=? num * 10 ^ (- j).

Fixpoint first_above (fuel : nat) (j : Z) : Z :=
  match fuel with
  | O => j
  | S fuel' => if ge_pow10 j then first_above fuel' (j + 1) else j
  end.

(** The position of the decimal point: the [k] with
    [10^(k-1) <= m * 2^e < 10^k]. *)
Definition decpt : Z :=
  first_above 8 ((Z.log2 num - Z.log2 den) * 30103 / 100000 - 2).

(** The [n]-digit decimal next to the value that reads back as the same
    float, the nearer one when both neighbours do. *)
Definition candidate (n : Z) : option Z :=
  let k := decpt - n in
  let '(a, b) := if 0 <=? k then (num, den * 10 ^ k) else (num * 10 ^ (- k), den) in
  let lo := a / b in
  let r := a mod b in
  let hi := lo + 1 in
  let back d := bool_decide (float_of_decimal false d k = S754_finite false m e) in
  match back lo, back hi with
  | true, true =>
      match 2 * r ?= b with
      | Lt => Some lo
      | Gt => Some hi
      | Eq => Some (if Z.even lo then lo else hi)
      end
  | true, false => Some lo
  | false, true => Some hi
  | false, false => None
  end.

(** The shortest decimal [d * 10^k] that reads back as the float. *)
Fixpoint shortest (fuel : nat) (n : Z) : Z * Z :=
  match fuel with
  | O => (Zpos m, 0)
  | S fuel' =>
      match candidate n with
      | Some d => (d, decpt - n)
      | None => shortest fuel' (n + 1)
      end
  end.
End FloatRepr.

Definition zeros (n : Z) : string := of_chars (repeat "0"%char (Z.to_nat n)).

(** The [repr] layout of the digits [ds] read as [0.ds * 10^pt]: exponent
    notation below [1e-4] and from [1e16] on, positional otherwise. *)
Definition format_short (ds : string) (pt : Z) : string :=
  let cs := chars ds in
  let n := Z.of_nat (length cs) in
  if (pt <=? -4) || (16 <? pt) then
    let x := pt - 1 in
    of_chars (take 1 cs)
    +:+ (if 1 <? n then "." +:+ of_chars (drop 1 cs) else "")
    +:+ "e" +:+ (if x <? 0 then "-" else "+")
    +:+ (if Z.abs x <? 10 then "0" else "") +:+ pretty (Z.abs x)
  else if pt <=? 0 then "0." +:+ zeros (- pt) +:+ ds
  else if n <=? pt then ds +:+ zeros (pt - n) +:+ ".0"
  else of_chars (take (Z.to_nat pt) cs) +:+ "." +:+ of_chars (drop (Z.to_nat pt) cs).

(** [repr(x)] for a float, which is also [str(x)]. *)
Definition float_repr (f : float) : string :=
  match f with
  | S754_nan => "nan"
  | S754_infinity s => if s then "-inf" else "inf"
  | S754_zero s => if s then "-0.0" else "0.0"
  | S754_finite s m e =>
      let '(d, k) := shortest m e 17 1 in
      let all := chars (pretty d) in
      let ds := rev (drop_while (Ascii.eqb "0"%char) (rev all)) in
      (if s then "-" else "") +:+ format_short (of_chars ds) (k + Z.of_nat (length all))
  end.

(** ** Python values

    What the unpickled snapshot is made of. Dictionaries are keyed by
    strings, the only keys the extractor looks up. *)

#[local] Set Warnings "-register-all".

Inductive pyval : Type :=
  | PyNone
  | PyBool (b : bool)
  | PyInt (n : Z)
  | PyFloat (f : float)
  | PyStr (s : string)
  | PyList (l : list pyval)
  | PyDict (d : list (string * pyval)).

Definition quote1 : ascii := "'"%char.
Definition quote2 : ascii := "034"%char.
Definition backslash : ascii := "092"%char.

Definition hex_digit (n : Z) : ascii :=
  ascii_of_N (Z.to_N (if n <? 10 then 48 + n else 87 + n)).

Definition escape_char (q c : ascii) : list ascii :=
  let n := code c in
  if Ascii.eqb c q || Ascii.eqb c backslash then [backslash; c]
  else if n =? 9 then [backslash; "t"%char]
  else if n =? 10 then [backslash; "n"%char]
  else if n =? 13 then [backslash; "r"%char]
  else if (n <? 32) || ((127 <=? n) && (n <=? 160)) || (n =? 173)
  then [backslash; "x"%char; hex_digit (n / 16); hex_digit (n mod 16)]
  else [c].

(** [repr(s)] for a string. *)
Definition str_repr (s : string) : string :=
  let cs := chars s in
  let q := if existsb (Ascii.eqb quote1) cs && negb (existsb (Ascii.eqb quote2) cs)
           then quote2 else quote1 in
  of_chars (q :: concat (map (escape_char q) cs) ++ [q])%list.

Fixpoint join (sep : string) (l : list string) : string :=
  match l with
  | [] => ""
  | [s] => s
  | s :: l' => s +:+ sep +:+ join sep l'
  end.

Fixpoint py_repr (v : pyval) : string :=
  match v with
  | PyNone => "None"
  | PyBool b => if b then "True" else "False"
  | PyInt n => str_of_int n
  | PyFloat f => float_repr f
  | PyStr s => str_repr s
  | PyList l => "[" +:+ join ", " (map py_repr l) +:+ "]"
  | PyDict d =>
      "{" +:+ join ", " (map (fun kv => str_repr (fst kv) +:+ ": " +:+ py_repr (snd kv)) d) +:+ "}"
  end.

(** [str(v)] *)
Definition py_str (v : pyval) : string :=
  match v with
  | PyStr s => s
  | _ => py_repr v
  end.

(** [d.get(key, default)]: a method of dictionaries only. *)
Definition py_get (d : pyval) (key : string) (default : pyval) : result pyval :=
  match d with
  | PyDict kvs =>
      Ok (match List.find (fun kv => String.eqb (fst kv) key) kvs with
          | Some kv => snd kv
          | None => default
          end)
  | _ => Raise AttributeError
  end.

(** [for x in v]: the elements of a list, the characters of a string, the
    keys of a dictionary; nothing else here is iterable. *)
Definition py_iter (v : pyval) : result (list pyval) :=
  match v with
  | PyList l => Ok l
  | PyStr s => Ok (map (fun c => PyStr (String c "")) (chars s))
  | PyDict kvs => Ok (map (fun kv => PyStr (fst kv)) kvs)
  | _ => Raise TypeError
  end.

(** [v.strip()]: a method of strings only. *)
Definition py_strip (v : pyval) : result string :=
  match v with
  | PyStr s => Ok (strip s)
  | _ => Raise AttributeError
  end.

(** The integer a finite float truncates to. *)
Definition trunc (s : bool) (m : positive) (e : Z) : Z :=
  cond_Zopp s (if 0 <=? e then Zpos m * 2 ^ e else Zpos m / 2 ^ (- e)).

(** [int(v)] *)
Definition py_int (v : pyval) : result Z :=
  match v with
  | PyBool b => Ok (if b then 1 else 0)
  | PyInt n => Ok n
  | PyFloat S754_nan => Raise ValueError
  | PyFloat (S754_infinity _) => Raise OverflowError
  | PyFloat (S754_zero _) => Ok 0
  | PyFloat (S754_finite s m e) => Ok (trunc s m e)
  | PyStr s => int_of_str s
  | PyNone | PyList _ | PyDict _ => Raise TypeError
  end.

(** [float_value * int_value] *)
Definition mul_int (x : float) (n : Z) : result float :=
  y ← float_of_int n;
  Ok (fmul x y).

(** A number as [sum] returns it: the int it starts from, or a float. *)
Inductive number : Type :=
  | NInt (n : Z)
  | NFloat (f : float).

(** [sum(xs)] for floats, from the start value [0], left to right; the
    first step [0 + x] adds [0.0]. (From CPython 3.12 on, [sum] also carries
    a compensation term for the rounding of the additions. No statement
    below depends on how a total is rounded, only on what it is once
    computed; the totals of the concrete inputs are the same either way.) *)
Definition py_sum (xs : list float) : number :=
  match xs with
  | [] => NInt 0
  | x :: xs' => NFloat (fold_left fadd xs' (fadd fzero x))
  end.

(** [t > 0] *)
Definition gt_zero (t : number) : bool :=
  match t with
  | NInt n => 0 <? n
  | NFloat f => fltb fzero f
  end.

(** [x / t] *)
Definition div_number (x : float) (t : number) : result float :=
  match t with
  | NInt 0 | NFloat (S754_zero _) => Raise ZeroDivisionError
  | NInt n => y ← float_of_int n; Ok (fdiv x y)
  | NFloat y => Ok (fdiv x y)
  end.

(** ** The extractor *)

Module CustomerDataExtractor.

Definition CATEGORY_MAPPING : gmap Z string :=
  list_to_map [(1, "Electronics"); (2, "Apparel"); (3, "Books"); (4, "Home Goods")].

Inductive dtype : Type := int64 | string_t | datetime64 | bool_t | float64.

Definition COLUMN_TYPES : list (string * dtype) :=
  [ ("customer_id", int64);
    ("customer_name", string_t);
    ("registration_date", datetime64);
    ("is_vip", bool_t);
    ("order_id", int64);
    ("order_date", datetime64);
    ("product_id", int64);
    ("product_name", string_t);
    ("category", string_t);
    ("unit_price", float64);
    ("item_quantity", int64);
    ("total_item_price", float64);
    ("total_order_value_percentage", float64) ].

(** The object's two data attributes, as [__init__] leaves them. *)
Record extractor : Type := {
  raw_data : pyval;
  vip_ids : gset Z;
}.

Definition init : extractor := {| raw_data := PyList []; vip_ids := ∅ |}.

(** The set comprehension of [load_data]:
    [{int(line.strip()) for line in f if line.strip().isdigit()}]. *)
Fixpoint vip_comprehension (lines : list string) : result (gset Z) :=
  match lines with
  | [] => Ok ∅
  | line :: rest =>
      if isdigit (strip line)
      then n ← int_of_str (strip line);
           ids ← vip_comprehension rest;
           Ok ({[ n ]} ∪ ids)
      else vip_comprehension rest
  end.

(** [load_data]. [orders_file] is what opening and unpickling the orders
    file gives, [vip_file] what opening the VIP file and reading its lines
    gives. Either block turns any exception into [RuntimeError]. *)
Definition load_data (self : extractor)
    (orders_file : result pyval) (vip_file : result (list string))
  : result extractor :=
  match orders_file with
  | Raise _ => Raise RuntimeError
  | Ok data =>
      match (lines ← vip_file; vip_comprehension lines) with
      | Raise _ => Raise RuntimeError
      | Ok ids => Ok {| raw_data := data; vip_ids := ids |}
      end
  end.

(** [parse_int(value, default=0)] *)
Definition parse_int (value : pyval) (default : Z) : result Z :=
  try_except (py_int value) [ValueError; TypeError] default.

(** [parse_price(price_raw)] *)
Definition parse_price (price_raw : pyval) : result float :=
  try_except
    (float_of_str (strip (replace ","%char "" (replace "$"%char "" (py_str price_raw)))))
    [ValueError; AttributeError] fzero.

(** The int a dictionary key is equal to, if any: a bool or an integral
    float hashes and compares as that int. A list or a dictionary is
    unhashable. *)
Definition int_key (key : pyval) : result (option Z) :=
  match key with
  | PyList _ | PyDict _ => Raise TypeError
  | PyInt n => Ok (Some n)
  | PyBool b => Ok (Some (if b then 1 else 0))
  | PyFloat (S754_zero _) => Ok (Some 0)
  | PyFloat (S754_finite s m e) =>
      Ok (if (0 <=? e) || (Zpos m mod 2 ^ (- e) =? 0) then Some (trunc s m e) else None)
  | _ => Ok None
  end.

(** [self.CATEGORY_MAPPING.get(key, fallback)] *)
Definition category_get (key : pyval) (fallback : string) : result string :=
  k ← int_key key;
  Ok (default fallback (n ← k; CATEGORY_MAPPING !! n)).

Section Transform.
(** pandas' timestamps, and [pd.to_datetime(v, errors='coerce')], are taken
    as given. *)
Context {Timestamp : Type}.
Variable to_datetime : pyval -> result Timestamp.

(** One flat record: the dictionary [transform] builds per item. *)
Record row : Type := {
  customer_id : Z;
  customer_name : string;
  registration_date : Timestamp;
  is_vip : bool;
  order_id : Z;
  order_date : Timestamp;
  product_id : Z;
  product_name : string;
  category : string;
  unit_price : float;
  item_quantity : Z;
  total_item_price : float;
  total_order_value_percentage : float;
}.

(** [self.parse_price(item.get('price', 0.0)) * self.parse_int(item.get('quantity'))] *)
Definition item_total (item : pyval) : result float :=
  price_raw ← py_get item "price" (PyFloat fzero);
  price ← parse_price price_raw;
  quantity_raw ← py_get item "quantity" PyNone;
  quantity ← parse_int quantity_raw 0;
  mul_int price quantity.

(** The sum over [items] that [transform] calls [order_total]. *)
Definition order_total_of (items : list pyval) : result number :=
  totals ← for_each item_total items;
  Ok (py_sum totals).

(** The conditional expression of the percentage. *)
Definition percentage (item : pyval) (order_total : number) : result float :=
  if gt_zero order_total
  then t ← item_total item;
       q ← div_number t order_total;
       mul_int q 100
  else Ok fzero.

(** The dictionary display inside the list comprehension; its values are
    evaluated in the order they are written. *)
Definition make_row (cid : Z) (cname : string) (rdate : Timestamp) (vip : bool)
    (oid : Z) (odate : Timestamp) (order_total : number) (item : pyval)
  : result row :=
  pid_raw ← py_get item "item_id" PyNone;
  pid ← parse_int pid_raw 0;
  pname_raw ← py_get item "product_name" (PyStr "");
  pname ← py_strip pname_raw;
  cat_raw ← py_get item "category" PyNone;
  cat ← category_get cat_raw "Misc";
  price_raw ← py_get item "price" (PyFloat fzero);
  price ← parse_price price_raw;
  quantity_raw ← py_get item "quantity" PyNone;
  quantity ← parse_int quantity_raw 0;
  total ← item_total item;
  pct ← percentage item order_total;
  Ok {| customer_id := cid;
        customer_name := cname;
        registration_date := rdate;
        is_vip := vip;
        order_id := oid;
        order_date := odate;
        product_id := pid;
        product_name := pname;
        category := cat;
        unit_price := price;
        item_quantity := quantity;
        total_item_price := total;
        total_order_value_percentage := pct |}.

(** The body of [for order in ...]: the records one order adds to
    [flat_records]. *)
Definition order_records (cid : Z) (cname : string) (rdate : Timestamp)
    (vip : bool) (order : pyval) : result (list row) :=
  oid_raw ← py_get order "order_id" PyNone;
  oid ← parse_int oid_raw 0;
  odate_raw ← py_get order "order_date" PyNone;
  odate ← to_datetime odate_raw;
  items_raw ← py_get order "items" (PyList []);
  items ← py_iter items_raw;
  order_total ← order_total_of items;
  for_each (make_row cid cname rdate vip oid odate order_total) items.

(** The body of [for customer in self.raw_data]. *)
Definition customer_records (self : extractor) (customer : pyval)
  : result (list row) :=
  cid_raw ← py_get customer "id" PyNone;
  cid ← parse_int cid_raw 0;
  cname_raw ← py_get customer "name" (PyStr "");
  cname ← py_strip cname_raw;
  rdate_raw ← py_get customer "registration_date" PyNone;
  rdate ← to_datetime rdate_raw;
  let vip := bool_decide (cid ∈ vip_ids self) in
  orders_raw ← py_get customer "orders" (PyList []);
  orders ← py_iter orders_raw;
  recs ← for_each (order_records cid cname rdate vip) orders;
  Ok (concat recs).

(** [flat_records] when the two loops are over. *)
Definition flat_records (self : extractor) : result (list row) :=
  customers ← py_iter (raw_data self);
  recs ← for_each (customer_records self) customers;
  Ok (concat recs).

(** *** The table

    A [DataFrame] is its column labels and its rows, each under its index
    label. *)
Record DataFrame : Type := {
  columns : list string;
  body : list (Z * row);
}.

Definition row_keys : list string := map fst COLUMN_TYPES.

(** [pd.DataFrame(records)] for a list of dictionaries with the keys of
    [make_row]: the columns are those keys, the index is [0..n-1]. No
    record, no column. *)
Definition new_DataFrame (records : list row) : DataFrame :=
  {| columns := match records with [] => [] | _ => row_keys end;
     body := zip (seqZ 0 (Z.of_nat (length records))) records |}.

Definition has_columns (df : DataFrame) (labels : list string) : bool :=
  forallb (fun c => bool_decide (c ∈ columns df)) labels.

(** A Python int as an [int64] cell. *)
Definition cast_int64 (n : Z) : result Z :=
  if (- 2 ^ 63 <=? n) && (n <? 2 ^ 63) then Ok n else Raise OverflowError.

Definition cast_column (get : row -> Z) (df : DataFrame) : result (list Z) :=
  for_each cast_int64 (map (fun ir => get (snd ir)) (body df)).

(** [df.astype(types)]: [KeyError] for a label that is not a column; then
    the columns are cast in turn. The records hold strings, bools, floats
    and timestamps where [types] asks for them, and ints where it asks
    for [int64]: the only cast that can fail is that of an int outside
    the 64-bit range, and a cast that succeeds leaves the cell as it is. *)
Definition astype (df : DataFrame) (types : list (string * dtype)) : result DataFrame :=
  if has_columns df (map fst types) then
    _ ← cast_column customer_id df;
    _ ← cast_column order_id df;
    _ ← cast_column product_id df;
    _ ← cast_column item_quantity df;
    Ok df
  else Raise KeyError.

(** The sort key [by=['customer_id', 'order_id', 'product_id']]. *)
Definition sort_key (r : row) : Z * Z * Z :=
  (customer_id r, order_id r, product_id r).

(** Ascending lexicographic order of the keys. *)
Definition key_leb (a b : Z * Z * Z) : bool :=
  let '(a1, a2, a3) := a in
  let '(b1, b2, b3) := b in
  (a1 <? b1) || ((a1 =? b1) && ((a2 <? b2) || ((a2 =? b2) && (a3 <=? b3)))).

Fixpoint insert_row (x : Z * row) (l : list (Z * row)) : list (Z * row) :=
  match l with
  | [] => [x]
  | y :: l' =>
      if key_leb (sort_key (snd x)) (sort_key (snd y))
      then x :: l
      else y :: insert_row x l'
  end.

Fixpoint sort_rows (l : list (Z * row)) : list (Z * row) :=
  match l with
  | [] => []
  | x :: l' => insert_row x (sort_rows l')
  end.

(** [df.sort_values(by=[...], inplace=True)] with three keys: pandas
    sorts on several keys with a stable lexicographic sort (the [kind]
    argument applies to a single key only); rows keep their labels. *)
Definition sort_values (df : DataFrame) : result DataFrame :=
  if has_columns df ["customer_id"; "order_id"; "product_id"]
  then Ok {| columns := columns df; body := sort_rows (body df) |}
  else Raise KeyError.

(** [df.reset_index(drop=True, inplace=True)] *)
Definition reset_index (df : DataFrame) : DataFrame :=
  {| columns := columns df;
     body := zip (seqZ 0 (Z.of_nat (length (body df)))) (map snd (body df)) |}.

(** [transform] *)
Definition transform (self : extractor) : result DataFrame :=
  records ← flat_records self;
  let df := new_DataFrame records in
  df ← astype df COLUMN_TYPES;
  df ← sort_values df;
  Ok (reset_index df).
End Transform.

Arguments row : clear implicits.
Arguments DataFrame : clear implicits.

(** ** Words of the specification *)

(** The conversion that coerces every date it is given to NaT ([None]). The
    concrete inputs below carry no dates, which pandas reads as NaT. *)
Definition all_NaT (v : pyval) : result (option Z) := Ok None.


(** The price parser as the specification words it: strip a leading
    currency symbol and the thousands separators, trim, convert; [0.0] on
    failure. *)
Definition parse_price_spec (value : pyval) : float :=
  let text := py_str value in
  let text := match text with String "$" rest => rest | _ => text end in
  match float_of_str (strip (replace ","%char "" text)) with
  | Ok x => x
  | Raise _ => fzero
  end.

(** The nested collections the two loops walk. *)
Definition nested_orders (customer : pyval) : result (list pyval) :=
  orders_raw ← py_get customer "orders" (PyList []);
  py_iter orders_raw.

Definition nested_items (order : pyval) : result (list pyval) :=
  items_raw ← py_get order "items" (PyList []);
  py_iter items_raw.

(** The parsed identifier of a customer and of an order. *)
Definition customer_key (customer : pyval) : result Z :=
  cid_raw ← py_get customer "id" PyNone;
  parse_int cid_raw 0.

Definition order_key (order : pyval) : result Z :=
  oid_raw ← py_get order "order_id" PyNone;
  parse_int oid_raw 0.





(** Ascending order of the sort keys, as a relation. *)
Definition key_le (a b : Z * Z * Z) : Prop :=
  a.1.1 < b.1.1
  \/ (a.1.1 = b.1.1 /\ (a.1.2 < b.1.2 \/ (a.1.2 = b.1.2 /\ a.2 <= b.2))).

Definition row_le {T} (x y : Z * row T) : Prop :=
  key_le (sort_key x.2) (sort_key y.2).

(** The rows of a table, top to bottom, and its index. *)
Definition rows {T} (df : DataFrame T) : list (row T) := (body df).*2.
Definition index {T} (df : DataFrame T) : list Z := (body df).*1.




(** [order] is an order of [customer], a customer of the input. *)
Definition input_order (self : extractor) (customer order : pyval) : Prop :=
  exists customers orders,
    py_iter (raw_data self) = Ok customers /\ customer ∈ customers
    /\ nested_orders customer = Ok orders /\ order ∈ orders.

(** [item] is an item of an order of the input. *)
Definition input_item (self : extractor) (item : pyval) : Prop :=
  exists customer order items,
    input_order self customer order
    /\ nested_items order = Ok items /\ item ∈ items.

(** Ascending order of two rows under the sort key. *)
Definition rows_le {T} (r1 r2 : row T) : Prop :=
  key_le (sort_key r1) (sort_key r2).

(** Re-grouping the table by [(customer_id, order_id)]. *)
Definition group_key {T} (r : row T) : Z * Z := (customer_id r, order_id r).







Definition hundred : float := float_of_decimal false 100 0.

(** ** Concrete inputs *)

Definition newline : string := String "010"%char "".

(** The one-character line holding a superscript two (U+00B2). *)
Definition superscript_two : string := String "178"%char "".

Definition item_record (id : Z) (name : string) (cat price quantity : pyval) : pyval :=
  PyDict [("item_id", PyInt id); ("product_name", PyStr name);
          ("category", cat); ("price", price); ("quantity", quantity)].

Definition order_record (id : pyval) (items : list pyval) : pyval :=
  PyDict [("order_id", id); ("items", PyList items)].

Definition customer_record (id : Z) (name : string) (orders : list pyval) : pyval :=
  PyDict [("id", PyInt id); ("name", PyStr name); ("orders", PyList orders)].

(** Two customers, three orders (one of them empty), four items, two of
    them under the same sort key. *)
Definition bob_order : pyval :=
  order_record (PyStr "5")
    [ item_record 9 "Lamp" (PyInt 4) (PyStr "$1,000.50") (PyInt 2);
      item_record 3 "Novel" (PyInt 3) (PyFloat (float_of_decimal false 5 (-1))) (PyStr "4");
      item_record 3 "Atlas" (PyInt 3) (PyInt 30) (PyInt 1) ].

Definition bob : pyval := customer_record 2 " Bob " [bob_order].

Definition al : pyval :=
  customer_record 1 "Al"
    [ order_record (PyInt 7)
        [ item_record 1 "Phone" (PyInt 1) (PyStr "19.99") (PyInt 1) ];
      order_record (PyInt 8) [] ].

Definition sample : extractor :=
  {| raw_data := PyList [bob; al]; vip_ids := {[ 2 ]} |}.





(** One customer whose record has no ['orders'] key. *)
Definition no_orders_sample : extractor :=
  {| raw_data := PyList [PyDict [("id", PyInt 1); ("name", PyStr "Ann")]];
     vip_ids := ∅ |}.

Definition table_of (self : extractor) : DataFrame (option Z) :=
  match transform all_NaT self with
  | Ok df => df
  | Raise _ => {| columns := []; body := [] |}
  end.

Definition sample_table : DataFrame (option Z) := Eval vm_compute in table_of sample.



Definition one : float := float_of_decimal false 1 0.

(** A line of decimal digits only, and the identifiers the specification
    loads from a list of lines. *)
Definition is_decimal (s : string) : bool := all_digits (chars s).

Definition vip_spec (lines : list string) : gset Z :=
  list_to_set
    ((fun line => digits_value (chars (strip line)))
       <$> List.filter (fun line => is_decimal (strip line)) lines).

(** ** The remaining columns, and the script

    What [transform] reads from a customer, an order and an item besides
    the key, the price, the quantity and the category. *)
Definition customer_name_of (customer : pyval) : result string :=
  cname_raw ← py_get customer "name" (PyStr "");
  py_strip cname_raw.

Definition product_key (item : pyval) : result Z :=
  pid_raw ← py_get item "item_id" PyNone;
  parse_int pid_raw 0.

Definition product_name_of (item : pyval) : result string :=
  pname_raw ← py_get item "product_name" (PyStr "");
  py_strip pname_raw.

Section Script.
Context {Timestamp : Type}.
Variable to_datetime : pyval -> result Timestamp.

Definition registration_date_of (customer : pyval) : result Timestamp :=
  rdate_raw ← py_get customer "registration_date" PyNone;
  to_datetime rdate_raw.

Definition order_date_of (order : pyval) : result Timestamp :=
  odate_raw ← py_get order "order_date" PyNone;
  to_datetime odate_raw.

End Script.

(** The value under [key] in a record, [default] when the record has no
    such key or is no dictionary. *)
Definition field (record : pyval) (key : string) (default : pyval) : pyval :=
  match py_get record key default with
  | Ok v => v
  | Raise _ => default
  end.

Definition is_dict (v : pyval) : bool :=
  match v with PyDict _ => true | _ => false end.

Definition is_text (v : pyval) : bool :=
  match v with PyStr _ => true | _ => false end.

Definition is_infinite (v : pyval) : bool :=
  match v with PyFloat (S754_infinity _) => true | _ => false end.

Definition unhashable (v : pyval) : bool :=
  match v with PyList _ | PyDict _ => true | _ => false end.

Definition iterable (v : pyval) : bool :=
  match v with PyList _ | PyStr _ | PyDict _ => true | _ => false end.

(** Records [transform] cannot process: the call it makes on them raises
    an exception that nothing catches. *)
Definition bad_customer (customer : pyval) : bool :=
  negb (is_dict customer)
  || is_infinite (field customer "id" PyNone)
  || negb (is_text (field customer "name" (PyStr "")))
  || negb (iterable (field customer "orders" (PyList []))).

Definition bad_order (order : pyval) : bool :=
  negb (is_dict order)
  || is_infinite (field order "order_id" PyNone)
  || negb (iterable (field order "items" (PyList []))).

Definition bad_item (item : pyval) : bool :=
  negb (is_dict item)
  || is_infinite (field item "item_id" PyNone)
  || negb (is_text (field item "product_name" (PyStr "")))
  || unhashable (field item "category" PyNone)
  || is_infinite (field item "quantity" PyNone).

(** The range of an [int64] cell. *)
Definition in_int64 (n : Z) : Prop := - 2 ^ 63 <= n < 2 ^ 63.

(** The four integer cells of a row fit their columns. *)
Definition int_cells_ok {T} (r : row T) : Prop :=
  in_int64 (customer_id r) /\ in_int64 (order_id r)
  /\ in_int64 (product_id r) /\ in_int64 (item_quantity r).

(** One customer whose name is [None]. *)
Definition unnamed_sample : extractor :=
  {| raw_data := PyList [PyDict [("id", PyInt 1); ("name", PyNone)]];
     vip_ids := ∅ |}.

(** Two customers listed in either order; no two of their items share a
    sort key. *)
Definition carl : pyval :=
  customer_record 3 "Carl"
    [ order_record (PyInt 1)
        [ item_record 2 "Desk" (PyInt 4) (PyInt 120) (PyInt 1);
          item_record 1 "Pen" (PyInt 3) (PyStr "1.50") (PyInt 10) ] ].

Definition al_carl : extractor :=
  {| raw_data := PyList [al; carl]; vip_ids := {[ 3 ]} |}.

Definition carl_al : extractor :=
  {| raw_data := PyList [carl; al]; vip_ids := {[ 3 ]} |}.

Arguments key_leb : simpl never.
Arguments sort_key : simpl never.

(** ** Results and loops *)

Lemma bind_Ok {A B} (m : result A) (k : A -> result B) y :
  (m ≫= k) = Ok y -> exists a, m = Ok a /\ k a = Ok y.
Proof. destruct m as [a|e]; cbn; [eauto | discriminate]. Qed.

Ltac bind_inv H :=
  repeat match type of H with
    | (?m ≫= _) = Ok _ =>
        let a := fresh "a" in
        let E := fresh "E" in
        apply bind_Ok in H as (a & E & H)
    end.

Lemma for_each_Ok {A B} (f : A -> result B) xs ys :
  for_each f xs = Ok ys -> Forall2 (fun x y => f x = Ok y) xs ys.
Proof.
  revert ys. induction xs as [|x xs IH]; intros ys H; cbn in H.
  - injection H as <-. constructor.
  - bind_inv H. injection H as <-. constructor; auto.
Qed.

(** ** The sort *)

Section Sorting.
Context {T : Type}.
Abbreviation prow := (Z * row T)%type.

Ltac case_leb E :=
  match goal with
  | |- context [key_leb ?a ?b] => destruct (key_leb a b) eqn:E
  end.

Lemma key_leb_le a b : key_leb a b = true <-> key_le a b.
Proof.
  destruct a as [[a1 a2] a3], b as [[b1 b2] b3]. unfold key_leb, key_le. cbn.
  rewrite !orb_true_iff, !andb_true_iff, !orb_true_iff, !andb_true_iff.
  rewrite !Z.ltb_lt, !Z.eqb_eq, Z.leb_le. tauto.
Qed.

Lemma key_le_total a b : key_le a b \/ key_le b a.
Proof.
  destruct a as [[a1 a2] a3], b as [[b1 b2] b3]. unfold key_le. cbn. lia.
Qed.

Lemma key_le_trans a b c : key_le a b -> key_le b c -> key_le a c.
Proof.
  destruct a as [[a1 a2] a3], b as [[b1 b2] b3], c as [[c1 c2] c3].
  unfold key_le. cbn. lia.
Qed.

Lemma key_le_refl a : key_le a a.
Proof. destruct a as [[a1 a2] a3]. unfold key_le. cbn. lia. Qed.

Lemma insert_row_perm (x : prow) l : insert_row x l ≡ₚ x :: l.
Proof.
  induction l as [|y l IH]; cbn; [done|].
  case_leb E; [done|]. rewrite IH. apply perm_swap.
Qed.

Lemma sort_rows_perm (l : list prow) : sort_rows l ≡ₚ l.
Proof.
  induction l as [|x l IH]; cbn; [done|].
  rewrite insert_row_perm. by rewrite IH.
Qed.

Lemma insert_row_sorted (x : prow) l :
  Sorted row_le l -> Sorted row_le (insert_row x l).
Proof.
  induction 1 as [|y l Hs IH Hhd]; cbn.
  - repeat constructor.
  - case_leb E.
    + apply key_leb_le in E. constructor; [by constructor | by constructor].
    + assert (row_le y x) as Hyx.
      { destruct (key_le_total (sort_key x.2) (sort_key y.2)) as [H|H]; [|done].
        apply key_leb_le in H. congruence. }
      constructor; [done|].
      destruct Hhd as [|z l Hyz]; cbn.
      * by constructor.
      * case_leb E'; by constructor.
Qed.

Lemma sort_rows_sorted (l : list prow) : Sorted row_le (sort_rows l).
Proof. induction l; cbn; [constructor | by apply insert_row_sorted]. Qed.


End Sorting.

(** ** The shape of a successful run *)

Ltac use_eqs :=
  repeat (match goal with
          | E : ?m = Ok _ |- context [?m] => rewrite E
          end; cbn [mbind result_bind]).

Section Properties.
Context {T : Type}.
Variable to_datetime : pyval -> result T.


Lemma new_index_rows (records : list (row T)) :
  (zip (seqZ 0 (Z.of_nat (length records))) records).*2 = records.
Proof. apply snd_zip. rewrite length_seqZ. lia. Qed.

Lemma transform_Ok self df :
  transform to_datetime self = Ok df ->
  exists records,
    flat_records to_datetime self = Ok records
    /\ records <> []
    /\ columns df = row_keys
    /\ (body df).*1 = seqZ 0 (Z.of_nat (length records))
    /\ rows df = (sort_rows (zip (seqZ 0 (Z.of_nat (length records))) records)).*2.
Proof.
  intros H. unfold transform in H. bind_inv H.
  exists a. split; [done|].
  unfold astype in E0. destruct (has_columns _ _) eqn:Hc; [|done].
  bind_inv E0. injection E0 as <-.
  unfold sort_values in E1.
  destruct (has_columns (new_DataFrame a) [_;_;_]) eqn:Hc'; [|done].
  injection E1 as <-. injection H as <-. unfold rows. cbn.
  assert (length (sort_rows (zip (seqZ 0 (Z.of_nat (length a))) a)) = length a) as Hlen.
  { rewrite (Permutation_length (sort_rows_perm _)), length_zip, length_seqZ. lia. }
  split; [|split; [|split]].
  - intros ->. discriminate Hc.
  - destruct a; [discriminate Hc | done].
  - rewrite fst_zip; [by rewrite Hlen|]. rewrite length_seqZ, length_map. lia.
  - rewrite snd_zip; [done|]. rewrite length_seqZ, length_map. lia.
Qed.

Lemma rows_perm self df records :
  transform to_datetime self = Ok df ->
  flat_records to_datetime self = Ok records ->
  rows df ≡ₚ records.
Proof.
  intros H E. apply transform_Ok in H as (recs & E' & _ & _ & _ & ->).
  rewrite E in E'. injection E' as <-.
  rewrite sort_rows_perm. by rewrite new_index_rows.
Qed.


Lemma order_records_Ok cid cname rdate vip order (rs : list (row T)) :
  order_records to_datetime cid cname rdate vip order = Ok rs ->
  exists oid odate items t,
    order_key order = Ok oid
    /\ nested_items order = Ok items
    /\ order_total_of items = Ok t
    /\ Forall2 (fun item r => make_row cid cname rdate vip oid odate t item = Ok r) items rs.
Proof.
  intros H. unfold order_records in H. bind_inv H.
  exists a0, a2, a4, a5. unfold order_key, nested_items. use_eqs.
  repeat split; try done. by apply for_each_Ok.
Qed.

Lemma customer_records_Ok self customer (rs : list (row T)) :
  customer_records to_datetime self customer = Ok rs ->
  exists cid cname rdate orders rss,
    customer_key customer = Ok cid
    /\ nested_orders customer = Ok orders
    /\ Forall2 (fun order rs' =>
                  order_records to_datetime cid cname rdate
                    (bool_decide (cid ∈ vip_ids self)) order = Ok rs') orders rss
    /\ rs = concat rss.
Proof.
  intros H. unfold customer_records in H. bind_inv H. injection H as <-.
  exists a0, a2, a4, a6, a7. unfold customer_key, nested_orders. use_eqs.
  repeat split; try done. by apply for_each_Ok.
Qed.


Lemma elem_of_concat {A} (x : A) (ls : list (list A)) :
  x ∈ concat ls <-> exists l, l ∈ ls /\ x ∈ l.
Proof.
  induction ls as [|l ls IH]; cbn.
  - split; [by intros ?%elem_of_nil | by intros (? & ?%elem_of_nil & _)].
  - rewrite elem_of_app, IH. split.
    + intros [H|(l' & H1 & H2)]; [exists l | exists l']; split; auto; constructor; done.
    + intros (l' & [->|H1]%elem_of_cons & H2); eauto.
Qed.

Lemma Forall2_elem_r {A B} (P : A -> B -> Prop) xs ys y :
  Forall2 P xs ys -> y ∈ ys -> exists x, x ∈ xs /\ P x y.
Proof.
  induction 1 as [|x y' xs ys HP _ IH]; [by intros ?%elem_of_nil|].
  intros [->|Hy]%elem_of_cons.
  - exists x. split; [constructor | done].
  - destruct (IH Hy) as (x' & ? & ?). exists x'. split; [by constructor | done].
Qed.

Lemma Forall2_elem_l {A B} (P : A -> B -> Prop) xs ys x :
  Forall2 P xs ys -> x ∈ xs -> exists y, y ∈ ys /\ P x y.
Proof.
  induction 1 as [|x' y xs ys HP _ IH]; [by intros ?%elem_of_nil|].
  intros [->|Hx]%elem_of_cons.
  - exists y. split; [constructor | done].
  - destruct (IH Hx) as (y' & ? & ?). exists y'. split; [by constructor | done].
Qed.



Lemma rows_elem self df records (r : row T) :
  transform to_datetime self = Ok df ->
  flat_records to_datetime self = Ok records ->
  r ∈ rows df <-> r ∈ records.
Proof. intros H E. by rewrite (rows_perm _ _ _ H E). Qed.





(** C3. The table [transform] returns is ascending under the key
    [(customer_id, order_id, product_id)]: consecutive rows are
    non-decreasing, hence so is every pair of rows; and its index is
    [0..n-1]. *)
Theorem transform_sorted_reindexed self df :
  transform to_datetime self = Ok df ->
  Sorted rows_le (rows df)
  /\ StronglySorted rows_le (rows df)
  /\ index df = seqZ 0 (Z.of_nat (length (rows df))).
Proof.
  intros H. destruct (transform_Ok _ _ H) as (records & E & _ & _ & Hi & Hrows).
  assert (Sorted rows_le (rows df)) as Hs.
  { rewrite Hrows. apply (Sorted_fmap snd row_le); [done|]. apply sort_rows_sorted. }
  split; [done|]. split.
  { apply Sorted_StronglySorted; first [exact Hs | intros x y z; apply key_le_trans]. }
  unfold index. rewrite Hi. f_equal. f_equal.
  by rewrite (Permutation_length (rows_perm _ _ _ H E)).
Qed.


Section Counting.
Context (P : Z * Z -> Prop) `{Pdec : !forall k, Decision (P k)}.






End Counting.








Lemma order_without_items cid cname rdate vip order (rs : list (row T)) :
  order_records to_datetime cid cname rdate vip order = Ok rs ->
  nested_items order = Ok [] -> rs = [].
Proof.
  intros H Hi. apply order_records_Ok in H as (oid & odate & items & t & _ & Hi' & _ & Hf).
  rewrite Hi in Hi'. injection Hi' as <-. by inversion Hf.
Qed.

Lemma customer_without_orders self customer (rs : list (row T)) :
  customer_records to_datetime self customer = Ok rs ->
  nested_orders customer = Ok [] -> rs = [].
Proof.
  intros H Ho.
  apply customer_records_Ok in H as (cid & cname & rdate & orders & rss & _ & Ho' & Hf & ->).
  rewrite Ho in Ho'. injection Ho' as <-. by inversion Hf.
Qed.

(** Missing and empty nested collections add no record. *)
Lemma missing_orders_empty kvs :
  List.find (fun kv => String.eqb (fst kv) "orders") kvs = None ->
  nested_orders (PyDict kvs) = Ok [].
Proof. intros H. unfold nested_orders. cbn. by rewrite H. Qed.

Lemma missing_items_empty kvs :
  List.find (fun kv => String.eqb (fst kv) "items") kvs = None ->
  nested_items (PyDict kvs) = Ok [].
Proof. intros H. unfold nested_items. cbn. by rewrite H. Qed.

(** C5, where the code departs from it. When the nested collections of the
    input hold no item at all, [flat_records] is empty, the frame built
    from it has no column, and [transform] fails with the [KeyError] of
    [astype]. *)
Theorem transform_without_rows self :
  flat_records to_datetime self = Ok [] ->
  transform to_datetime self = Raise KeyError.
Proof. intros E. unfold transform. by rewrite E. Qed.
End Properties.

(** ** The parsers *)

Lemma float_of_str_raises s e : float_of_str s = Raise e -> e = ValueError.
Proof.
  unfold float_of_str. repeat case_match; congruence.
Qed.

Lemma int_of_str_raises s e : int_of_str s = Raise e -> e = ValueError.
Proof.
  unfold int_of_str. repeat case_match; congruence.
Qed.

(** C6, as amended. [parse_price] never raises: it removes every ['$'] and
    every [','] from the text of the value, wherever they stand, trims it
    and converts it to a float, and returns [0.0] when the conversion
    fails. [parse_price("$1,234.50") = 1234.50], [parse_price("bad") = 0.0],
    [parse_price(None) = 0.0]. *)
Theorem parse_price_total value :
  parse_price value
  = Ok (match float_of_str
                (strip (replace ","%char "" (replace "$"%char "" (py_str value)))) with
        | Ok x => x
        | Raise _ => fzero
        end)
  /\ parse_price (PyStr "$1,234.50") = Ok (float_of_decimal false 123450 (-2))
  /\ parse_price (PyStr "bad") = Ok fzero
  /\ parse_price PyNone = Ok fzero.
Proof.
  split; [|by vm_compute].
  unfold parse_price, try_except.
  destruct (float_of_str _) as [x|e] eqn:E; [done|].
  by apply float_of_str_raises in E as ->.
Qed.

(** C6 as stated fails: a currency symbol that is not leading is removed
    as well, so ["100$"] parses to [100.0], where stripping a leading symbol
    only leaves a text that is no number. *)
Lemma parse_price_trailing_symbol :
  parse_price (PyStr "100$") = Ok hundred
  /\ parse_price_spec (PyStr "100$") = fzero
  /\ parse_price (PyStr "100$") <> Ok (parse_price_spec (PyStr "100$")).
Proof. by vm_compute. Qed.

(** C7, where the code departs from it. [int] of an infinite float raises
    [OverflowError], which [parse_int] does not catch: the call raises
    whatever the default. *)
Theorem parse_int_infinity s default :
  parse_int (PyFloat (S754_infinity s)) default = Raise OverflowError.
Proof. reflexivity. Qed.

(** On every other value [parse_int] is total: the conversion when it
    succeeds, the default when it fails. *)
Lemma parse_int_otherwise value default :
  (forall s, value <> PyFloat (S754_infinity s)) ->
  parse_int value default
  = Ok (match py_int value with Ok n => n | Raise _ => default end).
Proof.
  intros Hfin. unfold parse_int, try_except.
  destruct (py_int value) as [n|e] eqn:E; [done|].
  destruct value as [|b|n|f|s|l|d]; cbn in E;
    try (injection E as <-; reflexivity); try discriminate E.
  - destruct f; try (injection E as <-; reflexivity); try discriminate E.
    by destruct (Hfin s).
  - by apply int_of_str_raises in E as ->.
Qed.

Example parse_int_examples :
  parse_int (PyStr "42") 0 = Ok 42
  /\ parse_int (PyStr "abc") 0 = Ok 0
  /\ parse_int PyNone (-1) = Ok (-1).
Proof. by vm_compute. Qed.

(** ** The VIP loader *)

(** The lines of the specification's example load as [{42, 7}]. *)
Example load_data_example :
  load_data init (Ok (PyList [])) (Ok ["42" +:+ newline; "  7"; "x9"; ""])
  = Ok {| raw_data := PyList []; vip_ids := {[ 42; 7 ]} |}.
Proof. reflexivity. Qed.

Lemma digit_not_blank c : is_ascii_digit c = true -> is_blank c = false.
Proof.
  unfold is_ascii_digit, is_blank. cbv zeta.
  rewrite andb_true_iff, !Z.leb_le.
  rewrite !orb_false_iff, andb_false_iff, !Z.leb_gt, !Z.eqb_neq. lia.
Qed.

Lemma digit_not_underscore c : is_ascii_digit c = true -> Ascii.eqb c underscore = false.
Proof. intros H. by destruct (Ascii.eqb_spec c underscore) as [->|]. Qed.

Lemma digit_is_digit_char c : is_ascii_digit c = true -> is_digit_char c = true.
Proof. intros H. unfold is_digit_char. by rewrite H. Qed.

Lemma drop_while_none {A} (p : A -> bool) l :
  Forall (fun x => p x = false) l -> drop_while p l = l.
Proof. destruct 1 as [|x l Hx _]; cbn; [done|]. by rewrite Hx. Qed.

Lemma trim_none {A} (p : A -> bool) l :
  Forall (fun x => p x = false) l -> trim p l = l.
Proof.
  intros H. unfold trim. rewrite (drop_while_none p l H).
  rewrite drop_while_none; [apply rev_involutive|].
  apply Forall_forall. intros x Hx. rewrite Forall_forall in H. apply H.
  apply list_elem_of_In. apply in_rev. by apply list_elem_of_In.
Qed.

Lemma split_sign_digit c cs :
  is_ascii_digit c = true -> split_sign (c :: cs) = (false, c :: cs).
Proof.
  destruct c as [[] [] [] [] [] [] [] []]; intros H; try discriminate H; reflexivity.
Qed.

Lemma underscores_ok_digits b cs :
  forallb is_ascii_digit cs = true -> underscores_ok b cs = true.
Proof.
  revert b. induction cs as [|c cs IH]; intros b H; cbn in *; [done|].
  apply andb_true_iff in H as [Hc Hcs].
  rewrite (digit_not_underscore c Hc). by apply IH.
Qed.

Lemma drop_underscores_digits cs :
  forallb is_ascii_digit cs = true -> drop_underscores cs = cs.
Proof.
  induction cs as [|c cs IH]; intros H; cbn in *; [done|].
  apply andb_true_iff in H as [Hc Hcs].
  rewrite (digit_not_underscore c Hc). cbn. f_equal. by apply IH.
Qed.

Lemma int_of_str_decimal s :
  is_decimal s = true -> int_of_str s = Ok (digits_value (chars s)).
Proof.
  unfold is_decimal, int_of_str. destruct (chars s) as [|c cs] eqn:E; [done|].
  intros H. cbn [all_digits] in H.
  assert (Forall (fun x => is_blank x = false) (c :: cs)) as Hb.
  { apply Forall_forall. intros x Hx. apply digit_not_blank.
    rewrite forallb_forall in H. apply H. by apply list_elem_of_In. }
  rewrite (trim_none is_blank _ Hb).
  assert (Hc := H). cbn in Hc. apply andb_true_iff in Hc as [Hc _].
  rewrite (split_sign_digit c cs Hc).
  rewrite (underscores_ok_digits false _ H), (drop_underscores_digits _ H).
  cbn [all_digits]. by rewrite H.
Qed.

Lemma decimal_isdigit s : is_decimal s = true -> isdigit s = true.
Proof.
  unfold is_decimal, isdigit, all_digits. destruct (chars s) as [|c cs]; [done|].
  intros H. rewrite forallb_forall in *. intros x Hx.
  apply digit_is_digit_char. by apply H.
Qed.

(** On lines free of superscript digits the loader does what the
    specification says. *)
Lemma vip_comprehension_decimal lines :
  (forall line, line ∈ lines ->
     isdigit (strip line) = true -> is_decimal (strip line) = true) ->
  vip_comprehension lines = Ok (vip_spec lines).
Proof.
  induction lines as [|line lines IH]; intros H; [done|].
  assert (vip_comprehension lines = Ok (vip_spec lines)) as IH'.
  { apply IH. intros l Hl. apply H. by constructor. }
  cbn [vip_comprehension]. unfold vip_spec. cbn [List.filter].
  destruct (isdigit (strip line)) eqn:Hd.
  - assert (is_decimal (strip line) = true) as Hdec by (apply H; [constructor | done]).
    rewrite Hdec, (int_of_str_decimal _ Hdec). cbn [mbind result_bind].
    by rewrite IH'.
  - destruct (is_decimal (strip line)) eqn:Hdec; [|done].
    apply decimal_isdigit in Hdec. congruence.
Qed.

(** C8, where the code departs from it. A line holding a superscript digit
    passes [isdigit], [int] rejects it, and [load_data] fails with
    [RuntimeError] instead of skipping the line. *)
Theorem load_data_superscript_digit :
  isdigit (strip superscript_two) = true
  /\ int_of_str (strip superscript_two) = Raise ValueError
  /\ load_data init (Ok (PyList [])) (Ok [superscript_two]) = Raise RuntimeError.
Proof. by vm_compute. Qed.

(** ** Runs on the concrete inputs *)

Lemma sample_runs : transform all_NaT sample = Ok sample_table.
Proof. vm_compute. reflexivity. Defined.






Lemma transform_sorted_reindexed_witness :
  transform all_NaT sample = Ok sample_table
  /\ Sorted rows_le (rows sample_table)
  /\ StronglySorted rows_le (rows sample_table)
  /\ index sample_table = seqZ 0 (Z.of_nat (length (rows sample_table))).
Proof.
  split; [exact sample_runs|].
  exact (transform_sorted_reindexed all_NaT sample sample_table sample_runs).
Defined.


Lemma transform_without_rows_witness :
  flat_records all_NaT no_orders_sample = Ok []
  /\ transform all_NaT no_orders_sample = Raise KeyError.
Proof.
  assert (flat_records all_NaT no_orders_sample = Ok []) as E
    by (vm_compute; reflexivity).
  split; [exact E|].
  exact (transform_without_rows all_NaT no_orders_sample E).
Defined.



(** ** Equality of doubles *)

(** The comparison [==] holds between a double and itself unless it is
    NaN: a row whose [total_item_price] is NaN is the only one on which
    [total_item_price == unit_price * item_quantity] reads false. *)
Lemma feqb_refl x : x <> fnan -> feqb x x = true.
Proof.
  intros Hx. unfold feqb, SFeqb, SFcompare.
  destruct x as [s|s| |s m e]; try by destruct s.
  - by destruct Hx.
  - destruct s; by rewrite Z.compare_refl, ?Pos.compare_cont_refl, ?Pos.compare_refl.
Qed.

(** ** Orders of a single item *)





(** ** More on the loader *)

Lemma digit_char_not_blank c : is_digit_char c = true -> is_blank c = false.
Proof.
  unfold is_digit_char, is_ascii_digit, is_blank. cbv zeta.
  rewrite !orb_true_iff, andb_true_iff, !Z.leb_le, !Z.eqb_eq.
  rewrite !orb_false_iff, andb_false_iff, !Z.leb_gt, !Z.eqb_neq. lia.
Qed.

Lemma digit_char_not_underscore c :
  is_digit_char c = true -> Ascii.eqb c underscore = false.
Proof. intros H. by destruct (Ascii.eqb_spec c underscore) as [->|]. Qed.

Lemma split_sign_digit_char c cs :
  is_digit_char c = true -> split_sign (c :: cs) = (false, c :: cs).
Proof.
  destruct c as [[] [] [] [] [] [] [] []]; intros H; try discriminate H; reflexivity.
Qed.

Lemma drop_underscores_digit_chars cs :
  forallb is_digit_char cs = true -> drop_underscores cs = cs.
Proof.
  induction cs as [|c cs IH]; intros H; cbn in *; [done|].
  apply andb_true_iff in H as [Hc Hcs].
  rewrite (digit_char_not_underscore c Hc). cbn. f_equal. by apply IH.
Qed.

(** A line that passes [isdigit] without being decimal is rejected by [int]. *)
Lemma int_of_str_not_decimal s :
  isdigit s = true -> is_decimal s = false -> int_of_str s = Raise ValueError.
Proof.
  unfold isdigit, is_decimal, int_of_str. destruct (chars s) as [|c cs] eqn:E; [done|].
  intros H Hd.
  assert (Forall (fun x => is_blank x = false) (c :: cs)) as Hb.
  { apply Forall_forall. intros x Hx. apply digit_char_not_blank.
    rewrite forallb_forall in H. apply H. by apply list_elem_of_In. }
  rewrite (trim_none is_blank _ Hb).
  assert (Hc := H). cbn in Hc. apply andb_true_iff in Hc as [Hc _].
  rewrite (split_sign_digit_char c cs Hc), (drop_underscores_digit_chars _ H), Hd.
  by rewrite andb_false_r.
Qed.

Lemma vip_comprehension_bad_line lines line :
  line ∈ lines -> isdigit (strip line) = true -> is_decimal (strip line) = false ->
  exists e, vip_comprehension lines = Raise e.
Proof.
  intros Hin Hd Hn. induction lines as [|l lines IH]; [by apply elem_of_nil in Hin|].
  cbn [vip_comprehension]. destruct (isdigit (strip l)) eqn:Hl.
  - destruct (int_of_str (strip l)) as [n|e] eqn:En; [|by exists e].
    cbn [mbind result_bind].
    apply elem_of_cons in Hin as [<-|Hin].
    { rewrite (int_of_str_not_decimal _ Hd Hn) in En. discriminate. }
    destruct (IH Hin) as (e & ->). by exists e.
  - apply elem_of_cons in Hin as [<-|Hin]; [congruence|]. by apply IH.
Qed.

Lemma vip_comprehension_Ok lines ids :
  vip_comprehension lines = Ok ids ->
  forall line, line ∈ lines ->
    isdigit (strip line) = true -> is_decimal (strip line) = true.
Proof.
  intros H line Hin Hd. destruct (is_decimal (strip line)) eqn:Hn; [done|].
  destruct (vip_comprehension_bad_line lines line Hin Hd Hn) as (e & He). congruence.
Qed.

Lemma elem_of_vip_spec lines n :
  n ∈ vip_spec lines <->
  exists line, line ∈ lines /\ is_decimal (strip line) = true
               /\ digits_value (chars (strip line)) = n.
Proof.
  unfold vip_spec. rewrite elem_of_list_to_set, list_elem_of_fmap. split.
  - intros (line & -> & Hl). apply list_elem_of_In, filter_In in Hl as [Hl Hd].
    exists line. by rewrite list_elem_of_In.
  - intros (line & Hl & Hd & <-). exists line. split; [done|].
    apply list_elem_of_In, filter_In. by rewrite <- list_elem_of_In.
Qed.

(** X1. [load_data] raises nothing but [RuntimeError], and it raises
    exactly when the orders file cannot be read, the VIP file cannot be
    read, or some line of the VIP file passes [isdigit] after stripping
    without being made of decimal digits only. (The lines are taken within
    the 4300 characters that [int] converts by default.) *)
Theorem load_data_failure self orders_file vip_file :
  (forall lines line,
     vip_file = Ok lines -> line ∈ lines -> (String.length line <= 4300)%nat) ->
  (forall e, load_data self orders_file vip_file = Raise e -> e = RuntimeError)
  /\ (load_data self orders_file vip_file = Raise RuntimeError <->
      (exists e, orders_file = Raise e)
      \/ (exists e, vip_file = Raise e)
      \/ (exists lines line,
            vip_file = Ok lines /\ line ∈ lines
            /\ isdigit (strip line) = true /\ is_decimal (strip line) = false)).
Proof.
  intros _. split.
  - unfold load_data. intros e. repeat case_match; congruence.
  - unfold load_data. destruct orders_file as [data|e]; [|by split; eauto].
    destruct vip_file as [lines|e]; cbn [mbind result_bind]; [|by split; eauto].
    destruct (vip_comprehension lines) as [ids|e] eqn:E; split; try done.
    + intros [(e & ?)|[(e & ?)|(ls & line & [= <-] & Hin & Hd & Hn)]]; try done.
      pose proof (vip_comprehension_Ok _ _ E line Hin Hd). congruence.
    + intros _. right. right. exists lines.
      assert (exists line, line ∈ lines /\ isdigit (strip line) = true
                           /\ is_decimal (strip line) = false) as (line & ? & ? & ?).
      { clear self data. revert e E.
        induction lines as [|l lines IH]; intros e E; [done|].
        cbn [vip_comprehension] in E. destruct (isdigit (strip l)) eqn:Hl.
        - destruct (is_decimal (strip l)) eqn:Hn.
          + rewrite (int_of_str_decimal _ Hn) in E. cbn [mbind result_bind] in E.
            destruct (vip_comprehension lines) as [ids|e'] eqn:E'; [done|].
            destruct (IH e' eq_refl) as (line & ? & ? & ?).
            exists line. split; [by constructor|done].
          + exists l. split; [constructor|done].
        - destruct (IH e E) as (line & ? & ? & ?).
          exists line. split; [by constructor|done]. }
      by exists line.
Qed.

Lemma load_data_failure_witness :
  (forall e, load_data init (Ok (PyList [])) (Ok [superscript_two; "7"]) = Raise e ->
             e = RuntimeError)
  /\ (load_data init (Ok (PyList [])) (Ok [superscript_two; "7"]) = Raise RuntimeError <->
      (exists e, Ok (PyList []) = Raise e)
      \/ (exists e, Ok [superscript_two; "7"] = Raise e)
      \/ (exists lines line,
            Ok [superscript_two; "7"] = Ok lines /\ line ∈ lines
            /\ isdigit (strip line) = true /\ is_decimal (strip line) = false)).
Proof.
  apply (load_data_failure init (Ok (PyList [])) (Ok [superscript_two; "7"])).
  intros lines line [= <-] Hin.
  apply elem_of_cons in Hin as [->|Hin]; [vm_compute; lia|].
  apply elem_of_cons in Hin as [->|Hin]; [vm_compute; lia|].
  by apply elem_of_nil in Hin.
Defined.

(** What a successful load leaves in the object. *)
Lemma load_data_Ok self orders_file vip_file self' :
  load_data self orders_file vip_file = Ok self' ->
  exists data lines,
    orders_file = Ok data /\ vip_file = Ok lines
    /\ raw_data self' = data
    /\ forall n, n ∈ vip_ids self' <->
         exists line, line ∈ lines /\ is_decimal (strip line) = true
                      /\ digits_value (chars (strip line)) = n.
Proof.
  unfold load_data. destruct orders_file as [data|e]; [|done].
  destruct vip_file as [lines|e]; cbn [mbind result_bind]; [|done].
  destruct (vip_comprehension lines) as [ids|e] eqn:E; [|done].
  intros [= <-]. exists data, lines. repeat split; try done; cbn [vip_ids].
  - rewrite (vip_comprehension_decimal lines (vip_comprehension_Ok _ _ E)) in E.
    injection E as <-. by intros ?%elem_of_vip_spec.
  - rewrite (vip_comprehension_decimal lines (vip_comprehension_Ok _ _ E)) in E.
    injection E as <-. by intros ?%elem_of_vip_spec.
Qed.

(** X2. When [load_data] succeeds, [raw_data] is the unpickled object and
    [vip_ids] holds exactly the numbers written, in decimal digits and
    surrounded by whitespace at most, on the lines of the VIP file. *)
Theorem load_data_ids self orders_file vip_file self' :
  load_data self orders_file vip_file = Ok self' ->
  exists data lines,
    orders_file = Ok data /\ vip_file = Ok lines
    /\ raw_data self' = data
    /\ forall n, n ∈ vip_ids self' <->
         exists line, line ∈ lines /\ is_decimal (strip line) = true
                      /\ digits_value (chars (strip line)) = n.
Proof. apply load_data_Ok. Qed.

Lemma load_data_ids_witness :
  load_data init (Ok (PyList [])) (Ok ["42" +:+ newline; "  7"; "x9"; ""])
  = Ok {| raw_data := PyList []; vip_ids := {[ 42; 7 ]} |}
  /\ exists data lines,
       Ok (PyList []) = Ok data
       /\ Ok ["42" +:+ newline; "  7"; "x9"; ""] = Ok lines
       /\ raw_data {| raw_data := PyList []; vip_ids := {[ 42; 7 ]} |} = data
       /\ forall n, n ∈ vip_ids {| raw_data := PyList []; vip_ids := {[ 42; 7 ]} |} <->
            exists line, line ∈ lines /\ is_decimal (strip line) = true
                         /\ digits_value (chars (strip line)) = n.
Proof.
  split; [reflexivity|].
  exact (load_data_ids init (Ok (PyList [])) (Ok ["42" +:+ newline; "  7"; "x9"; ""])
           {| raw_data := PyList []; vip_ids := {[ 42; 7 ]} |} eq_refl).
Defined.

(** ** More on the parsers *)

(** *** Strings as lists of characters *)

Lemma chars_of_chars l : chars (of_chars l) = l.
Proof. apply list_ascii_of_string_of_list_ascii. Qed.

Lemma of_chars_chars s : of_chars (chars s) = s.
Proof. apply string_of_list_ascii_of_string. Qed.

Lemma chars_app s1 s2 : chars (s1 +:+ s2) = chars s1 ++ chars s2.
Proof.
  induction s1 as [|c s1 IH]; [done|].
  change (c :: chars (s1 +:+ s2) = c :: (chars s1 ++ chars s2)). by rewrite IH.
Qed.

Lemma digits_value_acc cs acc :
  fold_left (fun a c => 10 * a + digit_value c) cs acc
  = acc * 10 ^ Z.of_nat (length cs) + digits_value cs.
Proof.
  unfold digits_value. revert acc. induction cs as [|c cs IH]; intros acc.
  - cbn. lia.
  - cbn [fold_left length]. rewrite IH, (IH (10 * 0 + digit_value c)).
    rewrite Nat2Z.inj_succ, Z.pow_succ_r by lia. lia.
Qed.

Lemma digits_value_cons c cs :
  digits_value (c :: cs) = digit_value c * 10 ^ Z.of_nat (length cs) + digits_value cs.
Proof. unfold digits_value at 1. cbn [fold_left]. rewrite digits_value_acc. lia. Qed.

Lemma pretty_N_char_digit d :
  (d < 10)%N ->
  is_ascii_digit (pretty_N_char d) = true /\ digit_value (pretty_N_char d) = Z.of_N d.
Proof.
  intros H.
  assert (d = 0 \/ d = 1 \/ d = 2 \/ d = 3 \/ d = 4 \/ d = 5 \/ d = 6 \/ d = 7
          \/ d = 8 \/ d = 9)%N as Hd by lia.
  repeat (destruct Hd as [->|Hd]; [by vm_compute|]). subst. by vm_compute.
Qed.

(** The digits [str] writes for a natural number read back as that number. *)
Lemma pretty_N_go_digits x s :
  forallb is_ascii_digit (chars s) = true ->
  forallb is_ascii_digit (chars (pretty_N_go x s)) = true
  /\ digits_value (chars (pretty_N_go x s))
     = Z.of_N x * 10 ^ Z.of_nat (length (chars s)) + digits_value (chars s).
Proof.
  revert s. induction (N.lt_wf_0 x) as [x _ IH]. intros s Hs.
  destruct (decide (x = 0%N)) as [->|Hx].
  - rewrite pretty_N_go_0. split; [done|]. lia.
  - rewrite pretty_N_go_step by lia.
    destruct (pretty_N_char_digit (x `mod` 10)%N) as [Hd Hv].
    { apply N.mod_lt. lia. }
    destruct (IH (x `div` 10)%N) with (s := String (pretty_N_char (x `mod` 10)) s)
      as [H1 H2].
    { apply N.div_lt; lia. }
    { cbn. by rewrite Hd. }
    split; [done|]. rewrite H2.
    change (chars (String (pretty_N_char (x `mod` 10)) s))
      with (pretty_N_char (x `mod` 10) :: chars s).
    rewrite digits_value_cons, Hv. cbn [length].
    rewrite Nat2Z.inj_succ, Z.pow_succ_r by lia.
    rewrite N2Z.inj_div, N2Z.inj_mod.
    pose proof (Z.div_mod (Z.of_N x) 10 ltac:(lia)). change (Z.of_N 10) with 10. lia.
Qed.

Lemma pretty_positive_decimal p :
  is_decimal (pretty (N.pos p)) = true
  /\ digits_value (chars (pretty (N.pos p))) = Z.pos p.
Proof.
  unfold pretty, pretty_N.
  destruct (decide (N.pos p = 0%N)) as [|_]; [done|].
  destruct (pretty_N_go_digits (N.pos p) "" eq_refl) as [H1 H2].
  change (digits_value (chars "")) with 0 in H2.
  change (10 ^ Z.of_nat (length (chars ""))) with 1 in H2.
  rewrite Z.mul_1_r, Z.add_0_r in H2. split; [|done].
  unfold is_decimal, all_digits.
  destruct (chars (pretty_N_go (N.pos p) "")) eqn:E; [|done].
  discriminate H2.
Qed.

(** *** Trimming *)

Lemma drop_while_app_all {A} (p : A -> bool) w l :
  forallb p w = true -> drop_while p (w ++ l) = drop_while p l.
Proof.
  induction w as [|c w IH]; cbn; [done|].
  intros [-> Hw]%andb_true_iff. by apply IH.
Qed.

Lemma drop_while_all {A} (p : A -> bool) l :
  forallb p l = true -> drop_while p l = [].
Proof.
  induction l as [|c l IH]; cbn; [done|].
  intros [-> Hl]%andb_true_iff. by apply IH.
Qed.

Lemma drop_while_head {A} (p : A -> bool) l :
  match drop_while p l with
  | [] => forallb p l = true
  | c :: _ => p c = false
  end.
Proof.
  induction l as [|c l IH]; cbn; [done|].
  destruct (p c) eqn:Hc; cbn; [done|]. by rewrite Hc.
Qed.

Lemma drop_while_idem {A} (p : A -> bool) l :
  drop_while p (drop_while p l) = drop_while p l.
Proof.
  pose proof (drop_while_head p l) as H.
  destruct (drop_while p l) as [|c l']; cbn; [done|]. by rewrite H.
Qed.

Lemma forallb_rev {A} (p : A -> bool) l : forallb p (rev l) = forallb p l.
Proof.
  induction l as [|c l IH]; cbn; [done|].
  rewrite forallb_app, IH. cbn. rewrite andb_true_r. apply andb_comm.
Qed.

(** Padding with characters [p] removes does not change what [trim] leaves. *)
Lemma trim_pad {A} (p : A -> bool) w1 l w2 :
  forallb p w1 = true -> forallb p w2 = true ->
  trim p (w1 ++ l ++ w2) = trim p l.
Proof.
  intros H1 H2. unfold trim. rewrite (drop_while_app_all p w1 _ H1).
  pose proof (drop_while_head p l) as Hh.
  destruct (drop_while p l) as [|c l'] eqn:E.
  - rewrite (drop_while_all p (l ++ w2)); [done|].
    rewrite forallb_app. by rewrite Hh, H2.
  - assert (drop_while p (l ++ w2) = (c :: l') ++ w2) as ->.
    { clear H1 H2. revert E. induction l as [|x l IH]; cbn; [done|].
      destruct (p x) eqn:Hx; [done|]. by intros [= -> ->]. }
    rewrite rev_app_distr. rewrite drop_while_app_all; [done|].
    by rewrite forallb_rev.
Qed.

Lemma drop_while_suffix {A} (p : A -> bool) l :
  exists k, l = k ++ drop_while p l.
Proof.
  induction l as [|c l [k IH]]; cbn; [by exists []|].
  destruct (p c); [|by exists []]. exists (c :: k). cbn. by rewrite <- IH.
Qed.

Lemma trim_idem {A} (p : A -> bool) l : trim p (trim p l) = trim p l.
Proof.
  unfold trim at 2 3.
  set (L := drop_while p l). set (D := drop_while p (rev L)).
  assert (drop_while p (rev D) = rev D) as Hfront.
  { destruct (drop_while_suffix p (rev L)) as [k Hk]. fold D in Hk.
    apply (f_equal (@rev A)) in Hk. rewrite rev_involutive, rev_app_distr in Hk.
    pose proof (drop_while_head p l) as Hh. fold L in Hh.
    destruct (rev D) as [|h t]; [done|]. rewrite Hk in Hh. cbn in Hh.
    cbn. by rewrite Hh. }
  unfold trim. rewrite Hfront, rev_involutive. unfold D.
  by rewrite drop_while_idem.
Qed.

(** *** [parse_int] *)

Lemma int_of_str_pad w1 s w2 :
  forallb is_blank (chars w1) = true -> forallb is_blank (chars w2) = true ->
  int_of_str (w1 +:+ s +:+ w2) = int_of_str s.
Proof.
  intros H1 H2. unfold int_of_str. by rewrite !chars_app, trim_pad.
Qed.

Lemma all_digits_forallb cs : all_digits cs = true -> forallb is_ascii_digit cs = true.
Proof. by destruct cs. Qed.

Lemma digits_not_blank cs :
  forallb is_ascii_digit cs = true -> Forall (fun x => is_blank x = false) cs.
Proof.
  intros H. apply Forall_forall. intros x Hx. apply digit_not_blank.
  rewrite forallb_forall in H. apply H. by apply list_elem_of_In.
Qed.

Lemma int_of_str_negative s :
  is_decimal s = true -> int_of_str ("-" +:+ s) = Ok (- digits_value (chars s)).
Proof.
  unfold is_decimal. intros H. pose proof (all_digits_forallb _ H) as Hd.
  unfold int_of_str. change (chars ("-" +:+ s)) with ("-"%char :: chars s).
  rewrite trim_none by (constructor; [done | by apply digits_not_blank]).
  cbn [split_sign].
  by rewrite (underscores_ok_digits false _ Hd), (drop_underscores_digits _ Hd), H.
Qed.

Lemma int_of_str_of_int n : int_of_str (str_of_int n) = Ok n.
Proof.
  destruct n as [|p|p]; [done| |].
  - change (str_of_int (Z.pos p)) with (pretty (N.pos p)).
    destruct (pretty_positive_decimal p) as [H1 H2].
    by rewrite (int_of_str_decimal _ H1), H2.
  - change (str_of_int (Z.neg p)) with ("-" +:+ pretty (N.pos p)).
    destruct (pretty_positive_decimal p) as [H1 H2].
    by rewrite (int_of_str_negative _ H1), H2.
Qed.

(** X3. [parse_int] reads back the text [str] writes for an int, whatever
    blanks surround it and whatever the default: an identifier or a
    quantity stored as text is parsed to the number it shows. (The int is
    taken within the 4300 digits CPython converts by default.) *)
Theorem parse_int_of_text n w1 w2 default :
  Z.abs n < 10 ^ 4300 ->
  forallb is_blank (chars w1) = true -> forallb is_blank (chars w2) = true ->
  parse_int (PyStr (w1 +:+ str_of_int n +:+ w2)) default = Ok n.
Proof.
  intros _ H1 H2. unfold parse_int. cbn [py_int].
  by rewrite (int_of_str_pad _ _ _ H1 H2), int_of_str_of_int.
Qed.

Lemma parse_int_of_text_witness :
  parse_int (PyStr (" " +:+ str_of_int (-1205) +:+ newline)) 0 = Ok (-1205).
Proof.
  apply (parse_int_of_text (-1205) " " newline 0); [by vm_compute | done | done].
Defined.

(** X4. [parse_int] raises for an infinite float and for nothing else, and
    what it raises is [OverflowError]. *)
Theorem parse_int_raises value default e :
  parse_int value default = Raise e <->
  e = OverflowError /\ exists s, value = PyFloat (S754_infinity s).
Proof.
  split.
  - intros H. destruct value as [|b|n|f|s|l|d]; try discriminate H.
    + destruct f as [| s | |]; try discriminate H.
      injection H as <-. eauto.
    + unfold parse_int in H. cbn [py_int] in H.
      destruct (int_of_str s) as [n|e'] eqn:E; [discriminate H|].
      apply int_of_str_raises in E as ->. discriminate H.
  - by intros [-> [s ->]].
Qed.

(** *** [parse_price] *)

Lemma replace_chars old s :
  chars (replace old "" s)
  = List.filter (fun c => negb (Ascii.eqb c old)) (chars s).
Proof.
  unfold replace. rewrite chars_of_chars.
  induction (chars s) as [|c cs IH]; [done|].
  cbn [map concat List.filter]. rewrite IH. by destruct (Ascii.eqb c old).
Qed.

(** The characters of a price text once [parse_price] has removed the
    currency symbols and the separators. *)
Lemma replaced_chars s :
  chars (replace ","%char "" (replace "$"%char "" s))
  = List.filter (fun c => negb (Ascii.eqb c ","%char))
      (List.filter (fun c => negb (Ascii.eqb c "$"%char)) (chars s)).
Proof. by rewrite !replace_chars. Qed.

Lemma same_chars s1 s2 : chars s1 = chars s2 -> s1 = s2.
Proof. intros H. by rewrite <- (of_chars_chars s1), H, of_chars_chars. Qed.

Lemma filter_keep {A} (p : A -> bool) l :
  forallb p l = true -> List.filter p l = l.
Proof.
  induction l as [|c l IH]; cbn; [done|].
  intros [-> Hl]%andb_true_iff. by rewrite IH.
Qed.

Lemma space_not_symbol c :
  py_isspace c = true ->
  negb (Ascii.eqb c "$"%char) = true /\ negb (Ascii.eqb c ","%char) = true.
Proof.
  intros H. split.
  - by destruct (Ascii.eqb_spec c "$"%char) as [->|].
  - by destruct (Ascii.eqb_spec c ","%char) as [->|].
Qed.

Lemma spaces_replaced w :
  forallb py_isspace (chars w) = true ->
  List.filter (fun c => negb (Ascii.eqb c ","%char))
    (List.filter (fun c => negb (Ascii.eqb c "$"%char)) (chars w)) = chars w.
Proof.
  intros H. rewrite (filter_keep _ (chars w)).
  - apply filter_keep. rewrite forallb_forall in *. intros c Hc.
    by apply space_not_symbol, H.
  - rewrite forallb_forall in *. intros c Hc. by apply space_not_symbol, H.
Qed.

(** X5. [parse_price] does not see where the currency symbols and the
    thousands separators stand, nor the whitespace around the text: a
    ['$'] or a [','] anywhere in it, and whitespace padded before and
    after it, leave the price as it is. *)
Theorem parse_price_ignores a b w1 w2 :
  forallb py_isspace (chars w1) = true -> forallb py_isspace (chars w2) = true ->
  parse_price (PyStr (a +:+ "$" +:+ b)) = parse_price (PyStr (a +:+ b))
  /\ parse_price (PyStr (a +:+ "," +:+ b)) = parse_price (PyStr (a +:+ b))
  /\ parse_price (PyStr (w1 +:+ a +:+ w2)) = parse_price (PyStr a).
Proof.
  intros H1 H2. unfold parse_price. cbn [py_str].
  assert (forall s1 s2,
            chars (replace ","%char "" (replace "$"%char "" s1))
            = chars (replace ","%char "" (replace "$"%char "" s2)) ->
            replace ","%char "" (replace "$"%char "" s1)
            = replace ","%char "" (replace "$"%char "" s2)) as Heq
    by (intros s1 s2; apply same_chars).
  split; [|split].
  - rewrite (Heq (a +:+ "$" +:+ b) (a +:+ b)); [done|].
    rewrite !replaced_chars, !chars_app, !List.filter_app. done.
  - rewrite (Heq (a +:+ "," +:+ b) (a +:+ b)); [done|].
    rewrite !replaced_chars, !chars_app, !List.filter_app. done.
  - do 2 f_equal. unfold strip. f_equal.
    rewrite !replaced_chars, !chars_app, !List.filter_app.
    rewrite (spaces_replaced w1 H1), (spaces_replaced w2 H2).
    by apply trim_pad.
Qed.

Lemma parse_price_ignores_witness :
  parse_price (PyStr ("1" +:+ "$" +:+ "0")) = parse_price (PyStr ("1" +:+ "0"))
  /\ parse_price (PyStr ("1" +:+ "," +:+ "0")) = parse_price (PyStr ("1" +:+ "0"))
  /\ parse_price (PyStr (" " +:+ "1" +:+ newline)) = parse_price (PyStr "1").
Proof. apply (parse_price_ignores "1" "0" " " newline); reflexivity. Defined.

Lemma take_while_all {A} (p : A -> bool) l :
  forallb p l = true -> take_while p l = l.
Proof.
  induction l as [|c l IH]; cbn; [done|].
  intros [-> Hl]%andb_true_iff. by rewrite IH.
Qed.

Lemma decimal_literal_digits cs :
  all_digits cs = true -> decimal_literal cs = Some (digits_value cs, 0).
Proof.
  intros H. pose proof (all_digits_forallb _ H) as Hd. unfold decimal_literal.
  rewrite (take_while_all _ _ Hd), (drop_while_all _ _ Hd), app_nil_r.
  by destruct cs.
Qed.

Lemma digit_word c w :
  is_ascii_digit c = true ->
  String.eqb (String (to_lower c) w) "inf" = false
  /\ String.eqb (String (to_lower c) w) "infinity" = false
  /\ String.eqb (String (to_lower c) w) "nan" = false.
Proof.
  destruct c as [[] [] [] [] [] [] [] []]; intros H; try discriminate H; done.
Qed.

(** [float] of an optional minus sign and decimal digits. *)
Lemma float_of_str_digits (neg : bool) s :
  is_decimal s = true ->
  float_of_str ((if neg then "-" else "") +:+ s)
  = Ok (float_of_decimal neg (digits_value (chars s)) 0).
Proof.
  unfold is_decimal. intros H. pose proof (all_digits_forallb _ H) as Hd.
  unfold float_of_str.
  assert (exists c cs, chars s = c :: cs) as (c & cs & E)
    by (destruct (chars s) as [|c cs]; [done | by exists c, cs]).
  assert (is_ascii_digit c = true) as Hc
    by (rewrite E in Hd; cbn in Hd; by apply andb_true_iff in Hd as [? _]).
  destruct (digit_word c (of_chars (map to_lower cs)) Hc) as (W1 & W2 & W3).
  destruct neg.
  - change (chars ("-" +:+ s)) with ("-"%char :: chars s).
    rewrite trim_none by (constructor; [done | by apply digits_not_blank]).
    change (underscores_ok false ("-"%char :: chars s))
      with (underscores_ok false (chars s)).
    rewrite (underscores_ok_digits false _ Hd).
    change (drop_underscores ("-"%char :: chars s))
      with ("-"%char :: drop_underscores (chars s)).
    rewrite (drop_underscores_digits _ Hd). cbn [split_sign].
    rewrite (decimal_literal_digits _ H), E. cbn [map of_chars string_of_list_ascii].
    unfold of_chars in W1, W2, W3. by rewrite W1, W2, W3.
  - change ("" +:+ s) with s.
    rewrite trim_none by (by apply digits_not_blank).
    rewrite (underscores_ok_digits false _ Hd), (drop_underscores_digits _ Hd).
    rewrite E at 1. rewrite (split_sign_digit c cs Hc), <- E.
    rewrite (decimal_literal_digits _ H), E.
    cbn [map of_chars string_of_list_ascii].
    unfold of_chars in W1, W2, W3. by rewrite W1, W2, W3.
Qed.

Lemma digits_replaced cs :
  forallb is_ascii_digit cs = true ->
  List.filter (fun c => negb (Ascii.eqb c ","%char))
    (List.filter (fun c => negb (Ascii.eqb c "$"%char)) cs) = cs.
Proof.
  intros H. rewrite (filter_keep _ cs).
  - apply filter_keep. rewrite forallb_forall in *. intros c Hc.
    specialize (H c Hc). by destruct (Ascii.eqb_spec c ","%char) as [->|].
  - rewrite forallb_forall in *. intros c Hc.
    specialize (H c Hc). by destruct (Ascii.eqb_spec c "$"%char) as [->|].
Qed.

Lemma digit_not_space c : is_ascii_digit c = true -> py_isspace c = false.
Proof.
  unfold is_ascii_digit, py_isspace. cbv zeta.
  rewrite andb_true_iff, !Z.leb_le.
  rewrite !orb_false_iff, !andb_false_iff, !Z.leb_gt, !Z.eqb_neq. lia.
Qed.

(** The text of an int goes through the cleaning of [parse_price]
    unchanged. *)
Lemma int_text_cleaned (neg : bool) s :
  is_decimal s = true ->
  strip (replace ","%char "" (replace "$"%char "" ((if neg then "-" else "") +:+ s)))
  = (if neg then "-" else "") +:+ s.
Proof.
  unfold is_decimal. intros H. pose proof (all_digits_forallb _ H) as Hd.
  assert (Forall (fun x => py_isspace x = false) (chars s)) as Hs.
  { apply Forall_forall. intros x Hx. apply digit_not_space.
    rewrite forallb_forall in Hd. apply Hd. by apply list_elem_of_In. }
  apply same_chars. unfold strip. rewrite chars_of_chars, replaced_chars.
  destruct neg.
  - change (chars ("-" +:+ s)) with ("-"%char :: chars s).
    cbn [List.filter Ascii.eqb Bool.eqb negb].
    rewrite (digits_replaced _ Hd). apply trim_none. by constructor.
  - change ("" +:+ s) with s. rewrite (digits_replaced _ Hd). by apply trim_none.
Qed.

(** X6. The price of an int is the double nearest to it; an int beyond the
    range of the doubles gives an infinite price, where [float] of the int
    itself would raise. (The int is taken within the 4300 digits CPython
    converts to text by default.) *)
Theorem parse_price_of_int n :
  Z.abs n < 10 ^ 4300 ->
  parse_price (PyInt n) = Ok (binary_normalize prec emax n 0 false)
  /\ forall f, float_of_int n = Ok f -> parse_price (PyInt n) = Ok f.
Proof.
  intros _.
  assert (parse_price (PyInt n) = Ok (binary_normalize prec emax n 0 false)) as H.
  { unfold parse_price. cbn [py_str py_repr]. destruct n as [|p|p]; [done| |].
    - change (str_of_int (Z.pos p)) with ("" +:+ pretty (N.pos p)).
      destruct (pretty_positive_decimal p) as [H1 H2].
      rewrite (int_text_cleaned false _ H1), (float_of_str_digits false _ H1), H2.
      cbn [try_except]. unfold float_of_decimal.
      change (0 <=? 0) with true. change (10 ^ 0) with 1. cbv iota.
      by rewrite Z.mul_1_r.
    - change (str_of_int (Z.neg p)) with ("-" +:+ pretty (N.pos p)).
      destruct (pretty_positive_decimal p) as [H1 H2].
      rewrite (int_text_cleaned true _ H1), (float_of_str_digits true _ H1), H2.
      cbn [try_except]. unfold float_of_decimal.
      change (0 <=? 0) with true. change (10 ^ 0) with 1. cbv iota.
      by rewrite Z.mul_1_r. }
  split; [done|]. intros f Hf. rewrite H. unfold float_of_int in Hf.
  destruct (binary_normalize prec emax n 0 false); congruence.
Qed.

Lemma parse_price_of_int_witness :
  parse_price (PyInt 30) = Ok (binary_normalize prec emax 30 0 false)
  /\ forall f, float_of_int 30 = Ok f -> parse_price (PyInt 30) = Ok f.
Proof. apply (parse_price_of_int 30). by vm_compute. Defined.

Lemma drop_while_snoc {A} (p : A -> bool) l c :
  p c = false -> drop_while p (l ++ [c]) = drop_while p l ++ [c].
Proof.
  intros Hc. induction l as [|x l IH]; cbn; [by rewrite Hc|]. by destruct (p x).
Qed.

(** A first character that [trim] does not remove stays first. *)
Lemma trim_head {A} (p : A -> bool) c l :
  p c = false -> exists l', trim p (c :: l) = c :: l'.
Proof.
  intros Hc. unfold trim. cbn [drop_while]. rewrite Hc. cbn [rev].
  rewrite (drop_while_snoc p _ c Hc), rev_unit. eauto.
Qed.

(** A text that opens with a bracket or a brace is no price. *)
Lemma parse_price_bracket c rest :
  c = "["%char \/ c = "{"%char -> parse_price (PyStr (String c rest)) = Ok fzero.
Proof.
  intros Hc. unfold parse_price. cbn [py_str].
  assert (exists l, chars (strip (replace ","%char "" (replace "$"%char "" (String c rest))))
                    = c :: l) as [l El].
  { unfold strip. rewrite chars_of_chars, replaced_chars.
    change (chars (String c rest)) with (c :: chars rest).
    destruct Hc as [-> | ->]; cbn [List.filter Ascii.eqb Bool.eqb negb];
      by apply trim_head. }
  unfold float_of_str. rewrite El.
  destruct (trim_head is_blank c l) as [l' ->]; [by destruct Hc as [-> | ->]|].
  destruct (underscores_ok false (c :: l')); [|done].
  destruct Hc as [-> | ->]; reflexivity.
Qed.

(** X7. A price that is neither a number nor a text is read as [0.0]:
    [None], a bool (though a bool is an int), a list or a dictionary. *)
Theorem parse_price_of_other :
  parse_price PyNone = Ok fzero
  /\ (forall b, parse_price (PyBool b) = Ok fzero)
  /\ (forall l, parse_price (PyList l) = Ok fzero)
  /\ (forall d, parse_price (PyDict d) = Ok fzero).
Proof.
  split; [reflexivity|]. split; [by intros []|]. split.
  - intros l. apply (parse_price_bracket "["%char). by left.
  - intros d. apply (parse_price_bracket "{"%char). by right.
Qed.

(** ** More on the table *)

Section Rows.
Context {T : Type}.
Variable to_datetime : pyval -> result T.

(** Where a flat record comes from: the customer, the order and the item
    it was built from, and what each of its columns was read from. *)
Lemma flat_records_origin self (records : list (row T)) r :
  flat_records to_datetime self = Ok records -> r ∈ records ->
  exists customer order items item,
    input_order self customer order
    /\ nested_items order = Ok items /\ item ∈ items
    /\ customer_key customer = Ok (customer_id r)
    /\ customer_name_of customer = Ok (customer_name r)
    /\ registration_date_of to_datetime customer = Ok (registration_date r)
    /\ is_vip r = bool_decide (customer_id r ∈ vip_ids self)
    /\ order_key order = Ok (order_id r)
    /\ order_date_of to_datetime order = Ok (order_date r)
    /\ product_key item = Ok (product_id r)
    /\ product_name_of item = Ok (product_name r).
Proof.
  intros H Hr. unfold flat_records in H.
  apply bind_Ok in H as (customers & Hcs & H).
  apply bind_Ok in H as (rss & Hf & H). injection H as <-.
  apply for_each_Ok in Hf.
  apply elem_of_concat in Hr as (rs & Hrs & Hr).
  destruct (Forall2_elem_r _ _ _ _ Hf Hrs) as (customer & Hcust & Hcr).
  unfold customer_records in Hcr.
  apply bind_Ok in Hcr as (cid_raw & E1 & Hcr).
  apply bind_Ok in Hcr as (cid & E2 & Hcr).
  apply bind_Ok in Hcr as (cname_raw & E3 & Hcr).
  apply bind_Ok in Hcr as (cname & E4 & Hcr).
  apply bind_Ok in Hcr as (rdate_raw & E5 & Hcr).
  apply bind_Ok in Hcr as (rdate & E6 & Hcr).
  apply bind_Ok in Hcr as (orders_raw & E7 & Hcr).
  apply bind_Ok in Hcr as (orders & E8 & Hcr).
  apply bind_Ok in Hcr as (oss & Hfo & Hcr). injection Hcr as <-.
  apply for_each_Ok in Hfo.
  apply elem_of_concat in Hr as (rs' & Hrs' & Hr).
  destruct (Forall2_elem_r _ _ _ _ Hfo Hrs') as (order & Hord & Hor).
  unfold order_records in Hor.
  apply bind_Ok in Hor as (oid_raw & O1 & Hor).
  apply bind_Ok in Hor as (oid & O2 & Hor).
  apply bind_Ok in Hor as (odate_raw & O3 & Hor).
  apply bind_Ok in Hor as (odate & O4 & Hor).
  apply bind_Ok in Hor as (items_raw & O5 & Hor).
  apply bind_Ok in Hor as (items & O6 & Hor).
  apply bind_Ok in Hor as (t & O7 & Hor).
  apply for_each_Ok in Hor.
  destruct (Forall2_elem_r _ _ _ _ Hor Hr) as (item & Hitem & Hrow).
  unfold make_row in Hrow. bind_inv Hrow. injection Hrow as <-. cbn.
  exists customer, order, items, item.
  unfold input_order, nested_orders, nested_items, customer_key, customer_name_of,
    registration_date_of, order_key, order_date_of, product_key, product_name_of.
  use_eqs. repeat split; try done.
  exists customers, orders. use_eqs. done.
Qed.

Lemma strip_idem s : strip (strip s) = strip s.
Proof. unfold strip. by rewrite chars_of_chars, trim_idem. Qed.

Lemma py_strip_stripped v s : py_strip v = Ok s -> strip s = s.
Proof. destruct v; try done. intros [= <-]. apply strip_idem. Qed.

(** *** What the casts let through *)

Lemma cast_int64_Ok n m : cast_int64 n = Ok m -> in_int64 n.
Proof.
  unfold cast_int64, in_int64.
  destruct (_ && _) eqn:E; [|done]. intros _.
  apply andb_true_iff in E as [?%Z.leb_le ?%Z.ltb_lt]. lia.
Qed.

Lemma cast_int64_in n : in_int64 n -> cast_int64 n = Ok n.
Proof.
  unfold cast_int64, in_int64. intros [H1 H2].
  apply Z.leb_le in H1. apply Z.ltb_lt in H2. by rewrite H1, H2.
Qed.

Lemma for_each_cast_Ok xs ys : for_each cast_int64 xs = Ok ys -> Forall in_int64 xs.
Proof.
  intros H%for_each_Ok. induction H as [|x y xs ys Hx _ IH]; constructor; [|done].
  by apply cast_int64_Ok in Hx.
Qed.

Lemma for_each_cast_in xs : Forall in_int64 xs -> for_each cast_int64 xs = Ok xs.
Proof.
  induction 1 as [|x xs Hx _ IH]; [done|].
  cbn [for_each]. rewrite (cast_int64_in x Hx), IH. done.
Qed.


Lemma cast_column_Ok (get : row T -> Z) df l :
  cast_column get df = Ok l -> Forall (fun r => in_int64 (get r)) (rows df).
Proof.
  unfold cast_column, rows. intros H%for_each_cast_Ok.
  rewrite Forall_forall in H. apply Forall_forall. intros r Hr. apply H.
  apply list_elem_of_fmap in Hr as (ir & -> & Hir).
  apply (list_elem_of_fmap_2 (fun ir => get ir.2)) in Hir. done.
Qed.

Lemma cast_column_in (get : row T -> Z) df :
  Forall (fun r => in_int64 (get r)) (rows df) ->
  cast_column get df = Ok (map (fun ir => get ir.2) (body df)).
Proof.
  unfold cast_column, rows. intros H. apply for_each_cast_in.
  rewrite Forall_forall in H. apply Forall_forall. intros n Hn.
  apply (list_elem_of_fmap (fun ir => get ir.2)) in Hn as (ir & -> & Hir).
  apply H. by apply (list_elem_of_fmap_2 snd) in Hir.
Qed.

Lemma has_row_keys (df : DataFrame T) labels :
  columns df = row_keys ->
  forallb (fun c => bool_decide (c ∈ row_keys)) labels = true ->
  has_columns df labels = true.
Proof. unfold has_columns. by intros ->. Qed.

(** The table [transform] returns, spelled out. *)
Lemma transform_table self df :
  transform to_datetime self = Ok df ->
  exists records,
    flat_records to_datetime self = Ok records
    /\ records <> []
    /\ Forall int_cells_ok records
    /\ df = reset_index
              {| columns := row_keys;
                 body := sort_rows (zip (seqZ 0 (Z.of_nat (length records))) records) |}.
Proof.
  intros H. unfold transform in H.
  apply bind_Ok in H as (records & E & H).
  apply bind_Ok in H as (df1 & Ha & H).
  apply bind_Ok in H as (df2 & Hs & H). injection H as <-.
  exists records. split; [done|].
  unfold astype in Ha. destruct (has_columns _ _) eqn:Hc; [|done].
  apply bind_Ok in Ha as (l1 & C1 & Ha).
  apply bind_Ok in Ha as (l2 & C2 & Ha).
  apply bind_Ok in Ha as (l3 & C3 & Ha).
  apply bind_Ok in Ha as (l4 & C4 & Ha). injection Ha as <-.
  assert (records <> []) as Hne by (intros ->; discriminate Hc).
  unfold sort_values in Hs.
  destruct (has_columns (new_DataFrame records) [_;_;_]); [|done].
  injection Hs as <-. split; [done|]. split.
  - apply cast_column_Ok in C1, C2, C3, C4.
    unfold rows, new_DataFrame in C1, C2, C3, C4. cbn [body] in C1, C2, C3, C4.
    rewrite new_index_rows in C1, C2, C3, C4.
    rewrite Forall_forall in C1, C2, C3, C4. apply Forall_forall.
    intros r Hr. unfold int_cells_ok. auto.
  - unfold new_DataFrame. cbn [columns body]. by destruct records.
Qed.

Lemma sorted_by_rows (l : list (Z * row T)) :
  Sorted rows_le l.*2 -> Sorted row_le l.
Proof.
  induction l as [|x l IH]; [constructor|].
  rewrite fmap_cons. intros H. apply Sorted_inv in H as [Hs Hh].
  constructor; [by apply IH|].
  destruct l as [|y l]; constructor. by apply HdRel_inv in Hh.
Qed.

(** The sort leaves a sorted table as it is. *)
Lemma sort_rows_sorted_id (l : list (Z * row T)) :
  Sorted row_le l -> sort_rows l = l.
Proof.
  induction 1 as [|x l Hs IH Hh]; [done|].
  cbn [sort_rows]. rewrite IH. destruct Hh as [|y l Hxy]; [done|].
  cbn [insert_row]. apply key_leb_le in Hxy. by rewrite Hxy.
Qed.

Lemma transform_rows self df records :
  transform to_datetime self = Ok df ->
  flat_records to_datetime self = Ok records ->
  forall r : row T, r ∈ rows df <-> r ∈ records.
Proof. intros H E r. by apply (rows_elem to_datetime self df records). Qed.


(** X9. No name in the table starts or ends with whitespace: stripping the
    [customer_name] or the [product_name] of a row again changes
    nothing. *)
Theorem names_are_stripped self df (r : row T) :
  transform to_datetime self = Ok df -> r ∈ rows df ->
  strip (customer_name r) = customer_name r
  /\ strip (product_name r) = product_name r.
Proof.
  intros H Hr. destruct (transform_table _ _ H) as (records & E & _).
  apply (transform_rows _ _ _ H E) in Hr.
  destruct (flat_records_origin _ _ _ E Hr)
    as (customer & order & items & item & _ & _ & _ & _ & Hc & _ & _ & _ & _ & _ & Hp).
  unfold customer_name_of in Hc. unfold product_name_of in Hp.
  apply bind_Ok in Hc as (v & _ & Hc). apply bind_Ok in Hp as (w & _ & Hp).
  split; [exact (py_strip_stripped _ _ Hc) | exact (py_strip_stripped _ _ Hp)].
Qed.


(** X11. The output is a fixed point of the three closing steps: casting a
    returned table to [COLUMN_TYPES], sorting it by the three keys and
    resetting its index again give back the same table. *)
Theorem transform_normal_form self df :
  transform to_datetime self = Ok df ->
  astype df COLUMN_TYPES = Ok df
  /\ sort_values df = Ok df
  /\ reset_index df = df.
Proof.
  intros H. destruct (transform_table _ _ H) as (records & E & _ & Hi & Hdf).
  assert (forall r : row T, r ∈ rows df -> int_cells_ok r) as Hcells.
  { intros r Hr. apply (transform_rows _ _ _ H E) in Hr.
    rewrite Forall_forall in Hi. by apply Hi. }
  assert (columns df = row_keys) as Hcols by (by rewrite Hdf).
  set (l := sort_rows (zip (seqZ 0 (Z.of_nat (length records))) records)) in Hdf.
  assert (length l = length records) as Hlen.
  { unfold l. rewrite (Permutation_length (sort_rows_perm _)), length_zip, length_seqZ. lia. }
  assert (body df = zip (seqZ 0 (Z.of_nat (length l))) l.*2) as Hbody by (by rewrite Hdf).
  assert ((body df).*2 = l.*2) as Hsnd.
  { rewrite Hbody. apply snd_zip. rewrite length_seqZ, length_fmap. lia. }
  assert ((body df).*1 = seqZ 0 (Z.of_nat (length l))) as Hfst.
  { rewrite Hbody. apply fst_zip. rewrite length_seqZ, length_fmap. lia. }
  assert (length (body df) = length l) as Hlen'.
  { by rewrite <- (length_fmap snd (body df)), Hsnd, length_fmap. }
  split; [|split].
  - unfold astype. rewrite (has_row_keys df (map fst COLUMN_TYPES) Hcols) by done.
    rewrite !cast_column_in; [done|..]; apply Forall_forall; intros r Hr;
      destruct (Hcells r Hr) as (? & ? & ? & ?); done.
  - unfold sort_values.
    rewrite (has_row_keys df ["customer_id"; "order_id"; "product_id"] Hcols) by done.
    rewrite sort_rows_sorted_id.
    + by destruct df.
    + apply sorted_by_rows. rewrite Hsnd.
      apply (Sorted_fmap snd row_le); [done|]. apply sort_rows_sorted.
  - unfold reset_index. rewrite Hlen', <- Hfst.
    change (map snd (body df)) with ((body df).*2).
    rewrite zip_fst_snd. by destruct df.
Qed.
End Rows.

(** *** What makes [transform] fail *)

Lemma py_get_field d key def v :
  py_get d key def = Ok v -> is_dict d = true /\ field d key def = v.
Proof. intros H. unfold field. rewrite H. split; [|done]. by destruct d. Qed.

Lemma parse_int_finite v d n : parse_int v d = Ok n -> is_infinite v = false.
Proof. destruct v as [| | |f| | |]; try done. by destruct f. Qed.

Lemma py_strip_text v s : py_strip v = Ok s -> is_text v = true.
Proof. by destruct v. Qed.

Lemma py_iter_iterable v l : py_iter v = Ok l -> iterable v = true.
Proof. by destruct v. Qed.

Lemma category_get_hashable v fb l : category_get v fb = Ok l -> unhashable v = false.
Proof. by destruct v. Qed.

Section Failures.
Context {T : Type}.
Variable to_datetime : pyval -> result T.

Lemma make_row_good cid cname rdate vip oid odate t item (r : row T) :
  make_row cid cname rdate vip oid odate t item = Ok r -> bad_item item = false.
Proof.
  intros H. unfold make_row in H.
  apply bind_Ok in H as (pid_raw & [Hd <-]%py_get_field & H).
  apply bind_Ok in H as (pid & Hpid%parse_int_finite & H).
  apply bind_Ok in H as (pname_raw & [_ <-]%py_get_field & H).
  apply bind_Ok in H as (pname & Hname%py_strip_text & H).
  apply bind_Ok in H as (cat_raw & [_ <-]%py_get_field & H).
  apply bind_Ok in H as (cat & Hcat%category_get_hashable & H).
  apply bind_Ok in H as (price_raw & _ & H).
  apply bind_Ok in H as (price & _ & H).
  apply bind_Ok in H as (q_raw & [_ <-]%py_get_field & H).
  apply bind_Ok in H as (q & Hq%parse_int_finite & H).
  unfold bad_item. by rewrite Hd, Hpid, Hname, Hcat, Hq.
Qed.

Lemma order_records_good cid cname rdate vip order (rs : list (row T)) :
  order_records to_datetime cid cname rdate vip order = Ok rs ->
  bad_order order = false
  /\ forall items item,
       nested_items order = Ok items -> item ∈ items -> bad_item item = false.
Proof.
  intros H. unfold order_records in H.
  apply bind_Ok in H as (oid_raw & Hget & H).
  destruct (py_get_field _ _ _ _ Hget) as [Hd Hf].
  apply bind_Ok in H as (oid & Hoid%parse_int_finite & H).
  apply bind_Ok in H as (odate_raw & _ & H).
  apply bind_Ok in H as (odate & _ & H).
  apply bind_Ok in H as (items_raw & Hitems & H).
  destruct (py_get_field _ _ _ _ Hitems) as [_ Hfi].
  apply bind_Ok in H as (items & Hiter & H).
  apply bind_Ok in H as (t & _ & H).
  apply for_each_Ok in H. split.
  - unfold bad_order. rewrite Hd, Hf, Hoid, Hfi.
    by rewrite (py_iter_iterable _ _ Hiter).
  - intros items' item Hn Hin. unfold nested_items in Hn.
    rewrite Hitems in Hn. cbn [mbind result_bind] in Hn.
    rewrite Hiter in Hn. injection Hn as <-.
    destruct (Forall2_elem_l _ _ _ _ H Hin) as (r & _ & Hr).
    by apply make_row_good in Hr.
Qed.

Lemma customer_records_good self customer (rs : list (row T)) :
  customer_records to_datetime self customer = Ok rs ->
  bad_customer customer = false
  /\ forall orders order,
       nested_orders customer = Ok orders -> order ∈ orders ->
       bad_order order = false
       /\ forall items item,
            nested_items order = Ok items -> item ∈ items -> bad_item item = false.
Proof.
  intros H. unfold customer_records in H.
  apply bind_Ok in H as (cid_raw & Hget & H).
  destruct (py_get_field _ _ _ _ Hget) as [Hd Hf].
  apply bind_Ok in H as (cid & Hcid%parse_int_finite & H).
  apply bind_Ok in H as (cname_raw & [_ Hfn]%py_get_field & H).
  apply bind_Ok in H as (cname & Hname%py_strip_text & H).
  apply bind_Ok in H as (rdate_raw & _ & H).
  apply bind_Ok in H as (rdate & _ & H).
  apply bind_Ok in H as (orders_raw & Horders & H).
  destruct (py_get_field _ _ _ _ Horders) as [_ Hfo].
  apply bind_Ok in H as (orders & Hiter & H).
  apply bind_Ok in H as (rss & Hrss & H).
  apply for_each_Ok in Hrss. split.
  - unfold bad_customer. rewrite Hd, Hf, Hcid, Hfn, Hname, Hfo.
    by rewrite (py_iter_iterable _ _ Hiter).
  - intros orders' order Hn Hin. unfold nested_orders in Hn.
    rewrite Horders in Hn. cbn [mbind result_bind] in Hn.
    rewrite Hiter in Hn. injection Hn as <-.
    destruct (Forall2_elem_l _ _ _ _ Hrss Hin) as (rs' & _ & Hr).
    by apply order_records_good in Hr.
Qed.

(** X12. One record [transform] cannot process aborts the whole run: it
    raises, and returns no table, as soon as the input is not iterable, or
    holds a customer, an order or an item that is no dictionary, whose
    identifier or quantity is an infinite float, whose name is not a text,
    whose nested collection is not iterable, or whose category is a list or
    a dictionary. *)
Theorem transform_aborts self :
  iterable (raw_data self) = false
  \/ (exists customers customer,
        py_iter (raw_data self) = Ok customers /\ customer ∈ customers
        /\ bad_customer customer = true)
  \/ (exists customer order, input_order self customer order /\ bad_order order = true)
  \/ (exists item, input_item self item /\ bad_item item = true) ->
  exists e, transform to_datetime self = Raise e.
Proof.
  intros Hbad. destruct (transform to_datetime self) as [df|e] eqn:H; [|by exists e].
  exfalso. destruct (transform_table _ _ _ H) as (records & E & _).
  unfold flat_records in E.
  apply bind_Ok in E as (customers & Hcs & E).
  apply bind_Ok in E as (rss & Hf & _). apply for_each_Ok in Hf.
  assert (forall customer, customer ∈ customers ->
            exists rs, customer_records to_datetime self customer = Ok rs) as Hall.
  { intros customer Hin. destruct (Forall2_elem_l _ _ _ _ Hf Hin) as (rs & _ & Hr).
    by exists rs. }
  destruct Hbad as [Hbad|[Hbad|[Hbad|Hbad]]].
  - apply py_iter_iterable in Hcs. congruence.
  - destruct Hbad as (customers' & customer & Hcs' & Hin & Hb).
    rewrite Hcs in Hcs'. injection Hcs' as <-.
    destruct (Hall customer Hin) as (rs & Hr).
    apply customer_records_good in Hr as [Hg _]. congruence.
  - destruct Hbad as (customer & order & (customers' & orders & Hcs' & Hin & Ho & Hord) & Hb).
    rewrite Hcs in Hcs'. injection Hcs' as <-.
    destruct (Hall customer Hin) as (rs & Hr).
    apply customer_records_good in Hr as [_ Hg].
    destruct (Hg orders order Ho Hord) as [Hg' _]. congruence.
  - destruct Hbad as (item & (customer & order & items
                              & (customers' & orders & Hcs' & Hin & Ho & Hord)
                              & Hi & Hitem) & Hb).
    rewrite Hcs in Hcs'. injection Hcs' as <-.
    destruct (Hall customer Hin) as (rs & Hr).
    apply customer_records_good in Hr as [_ Hg].
    destruct (Hg orders order Ho Hord) as [_ Hg'].
    rewrite (Hg' items item Hi Hitem) in Hb. discriminate.
Qed.

End Failures.

(** *** Groups are blocks *)

Lemma strongly_sorted_lookup {A} (R : A -> A -> Prop) l :
  StronglySorted R l ->
  forall i j a b, (i < j)%nat -> l !! i = Some a -> l !! j = Some b -> R a b.
Proof.
  induction 1 as [|x l Hs IH Hall]; intros i j a b Hij Ha Hb; [done|].
  destruct j as [|j]; [lia|]. cbn in Hb. destruct i as [|i]; cbn in Ha.
  - injection Ha as <-. rewrite Forall_forall in Hall. apply Hall.
    by apply list_elem_of_lookup_2 in Hb.
  - apply (IH i j); [lia|done..].
Qed.

Lemma rows_le_squeeze {T} (a b c : row T) :
  rows_le a b -> rows_le b c ->
  (customer_id a = customer_id c -> customer_id b = customer_id a)
  /\ (group_key a = group_key c -> group_key b = group_key a).
Proof.
  unfold rows_le, key_le, sort_key, group_key. cbn. intros H1 H2. split.
  - lia.
  - intros [= Hc Ho]. f_equal; lia.
Qed.

Section Blocks.
Context {T : Type}.
Variable to_datetime : pyval -> result T.

Lemma transform_strongly_sorted self df :
  transform to_datetime self = Ok df -> StronglySorted rows_le (rows df).
Proof.
  intros H. destruct (transform_Ok to_datetime _ _ H) as (records & _ & _ & _ & _ & ->).
  apply Sorted_StronglySorted.
  - intros x y z. apply key_le_trans.
  - apply (Sorted_fmap snd row_le); [done|]. apply sort_rows_sorted.
Qed.

(** X14. The rows of one customer, and within them the rows of one order,
    stand together in the table: a row between two rows of the same
    [customer_id] has that [customer_id], and a row between two rows of the
    same [(customer_id, order_id)] has that pair. *)
Theorem groups_are_blocks self df i j k (a b c : row T) :
  transform to_datetime self = Ok df ->
  (i <= j <= k)%nat ->
  rows df !! i = Some a -> rows df !! j = Some b -> rows df !! k = Some c ->
  (customer_id a = customer_id c -> customer_id b = customer_id a)
  /\ (group_key a = group_key c -> group_key b = group_key a).
Proof.
  intros H [Hij Hjk] Ha Hb Hc.
  pose proof (transform_strongly_sorted _ _ H) as Hs.
  assert (rows_le a b) as Hab.
  { destruct (decide (i = j)) as [->|Hne].
    - rewrite Ha in Hb. injection Hb as <-. apply key_le_refl.
    - apply (strongly_sorted_lookup _ _ Hs i j); [lia|done..]. }
  assert (rows_le b c) as Hbc.
  { destruct (decide (j = k)) as [->|Hne].
    - rewrite Hb in Hc. injection Hc as <-. apply key_le_refl.
    - apply (strongly_sorted_lookup _ _ Hs j k); [lia|done..]. }
  by apply rows_le_squeeze.
Qed.
End Blocks.

(** *** Missing keys *)

Lemma py_get_absent kvs key default :
  Forall (fun kv : string * pyval => kv.1 <> key) kvs ->
  py_get (PyDict kvs) key default = Ok default.
Proof.
  intros H. cbn [py_get]. f_equal.
  induction H as [|kv kvs Hkv _ IH]; [done|].
  cbn [find]. cbv beta. destruct (String.eqb (fst kv) key) eqn:Heq; [|exact IH].
  by apply String.eqb_eq in Heq.
Qed.

Lemma percentage_of_nothing totals :
  match gt_zero (py_sum totals) with
  | true => q ← div_number fzero (py_sum totals); mul_int q 100
  | false => Ok fzero
  end = Ok fzero.
Proof.
  destruct totals as [|x xs]; [done|]. cbn [py_sum gt_zero].
  destruct (fold_left fadd xs (fadd fzero x)) as [[]|[]| |[] m e]; reflexivity.
Qed.

(** X15. An item that has none of the five keys [transform] reads gives a
    row of defaults: product [0] with an empty name, category ['Misc'],
    price [0.0], quantity [0], total [0.0], and [0.0] percent of any order
    total. *)
Theorem item_defaults {T} kvs cid cname (rdate : T) vip oid odate totals :
  Forall (fun kv : string * pyval =>
            kv.1 ∉ ["item_id"; "product_name"; "category"; "price"; "quantity"]) kvs ->
  make_row cid cname rdate vip oid odate (py_sum totals) (PyDict kvs)
  = Ok {| customer_id := cid;
          customer_name := cname;
          registration_date := rdate;
          is_vip := vip;
          order_id := oid;
          order_date := odate;
          product_id := 0;
          product_name := "";
          category := "Misc";
          unit_price := fzero;
          item_quantity := 0;
          total_item_price := fzero;
          total_order_value_percentage := fzero |}.
Proof.
  intros H.
  assert (forall key default,
            key ∈ ["item_id"; "product_name"; "category"; "price"; "quantity"] ->
            py_get (PyDict kvs) key default = Ok default) as Hget.
  { intros key default Hkey. apply py_get_absent.
    eapply Forall_impl; [exact H|]. intros kv Hkv Heq. apply Hkv. by rewrite Heq. }
  unfold make_row, percentage, item_total.
  rewrite !Hget by (rewrite !elem_of_cons; tauto).
  cbn [mbind result_bind].
  change (parse_int PyNone 0) with (Ok 0).
  change (py_strip (PyStr "")) with (Ok "").
  change (category_get PyNone "Misc") with (Ok "Misc").
  change (parse_price (PyFloat fzero)) with (Ok fzero).
  cbn [mbind result_bind].
  change (mul_int fzero 0) with (Ok fzero). cbn [mbind result_bind].
  by rewrite percentage_of_nothing.
Qed.

Lemma item_defaults_witness :
  make_row 1 "Al" (None : option Z) false 7 None (py_sum [one])
    (PyDict [("sku", PyStr "A-1")])
  = Ok {| customer_id := 1;
          customer_name := "Al";
          registration_date := None;
          is_vip := false;
          order_id := 7;
          order_date := None;
          product_id := 0;
          product_name := "";
          category := "Misc";
          unit_price := fzero;
          item_quantity := 0;
          total_item_price := fzero;
          total_order_value_percentage := fzero |}.
Proof.
  apply (item_defaults [("sku", PyStr "A-1")] 1 "Al" None false 7 None [one]).
  repeat constructor. rewrite !elem_of_cons, elem_of_nil. intros [|[|[|[|[|]]]]]; done.
Defined.

(** *** The table is canonical *)

Lemma NoDup_fmap_eq {A B} (f : A -> B) (l : list A) x y :
  NoDup (f <$> l) -> x ∈ l -> y ∈ l -> f x = f y -> x = y.
Proof.
  induction l as [|z l IH]; [by intros _ ?%elem_of_nil|].
  rewrite fmap_cons, NoDup_cons. intros [Hz Hl] Hx Hy Hf.
  apply elem_of_cons in Hx as [->|Hx]; apply elem_of_cons in Hy as [->|Hy].
  - done.
  - exfalso. apply Hz. rewrite Hf. by apply list_elem_of_fmap_2.
  - exfalso. apply Hz. rewrite <- Hf. by apply list_elem_of_fmap_2.
  - by apply IH.
Qed.

Lemma key_le_antisym a b : key_le a b -> key_le b a -> a = b.
Proof.
  destruct a as [[a1 a2] a3], b as [[b1 b2] b3]. unfold key_le. cbn.
  intros H1 H2. repeat f_equal; lia.
Qed.

Section Canonical.
Context {T : Type}.
Variable to_datetime : pyval -> result T.

Lemma table_of_rows self df :
  transform to_datetime self = Ok df ->
  df = {| columns := row_keys;
          body := zip (seqZ 0 (Z.of_nat (length (rows df)))) (rows df) |}.
Proof.
  intros H. destruct (transform_table _ _ _ H) as (records & _ & _ & _ & Hdf).
  set (l := sort_rows (zip (seqZ 0 (Z.of_nat (length records))) records)) in Hdf.
  assert (rows df = l.*2) as Hrows.
  { rewrite Hdf. unfold rows, reset_index. cbn [body].
    apply snd_zip. rewrite length_seqZ, length_map. lia. }
  rewrite Hrows, length_fmap. by rewrite Hdf.
Qed.

(** X16. The table does not depend on the order in which the input lists
    the customers, the orders and the items, as long as no two records
    share a sort key: two inputs whose flat records are the same up to
    their order give the same table, index included. *)
Theorem table_is_canonical self1 self2 df1 df2 (records1 records2 : list (row T)) :
  transform to_datetime self1 = Ok df1 ->
  transform to_datetime self2 = Ok df2 ->
  flat_records to_datetime self1 = Ok records1 ->
  flat_records to_datetime self2 = Ok records2 ->
  records1 ≡ₚ records2 ->
  NoDup (sort_key <$> records1) ->
  df1 = df2.
Proof.
  intros H1 H2 E1 E2 Hp Hnd.
  assert (rows df1 = rows df2) as Hrows.
  { apply (StronglySorted_unique_strong rows_le).
    - intros x1 x2 Hx1 Hx2 Hle Hge.
      apply (transform_rows _ _ _ _ H1 E1) in Hx1.
      apply (transform_rows _ _ _ _ H2 E2) in Hx2. rewrite <- Hp in Hx2.
      apply (NoDup_fmap_eq sort_key records1); [done..|].
      by apply key_le_antisym.
    - by apply (transform_strongly_sorted to_datetime self1).
    - by apply (transform_strongly_sorted to_datetime self2).
    - rewrite (rows_perm to_datetime _ _ _ H1 E1), (rows_perm to_datetime _ _ _ H2 E2).
      done. }
  rewrite (table_of_rows _ _ H1), (table_of_rows _ _ H2). by rewrite Hrows.
Qed.
End Canonical.

(** ** No item is lost *)

Section Coverage.
Context {T : Type}.
Variable to_datetime : pyval -> result T.


End Coverage.

(** ** The script *)

Section Main.
Context {T : Type}.
Variable to_datetime : pyval -> result T.

End Main.

(** ** More runs on the concrete inputs *)


Lemma names_are_stripped_witness :
  transform all_NaT sample = Ok sample_table
  /\ Forall (fun r => strip (customer_name r) = customer_name r
                      /\ strip (product_name r) = product_name r)
       (rows sample_table).
Proof.
  split; [exact sample_runs|]. apply Forall_forall. intros r Hr.
  exact (names_are_stripped all_NaT sample sample_table r sample_runs Hr).
Defined.


Lemma transform_normal_form_witness :
  transform all_NaT sample = Ok sample_table
  /\ astype sample_table COLUMN_TYPES = Ok sample_table
  /\ sort_values sample_table = Ok sample_table
  /\ reset_index sample_table = sample_table.
Proof.
  split; [exact sample_runs|].
  exact (transform_normal_form all_NaT sample sample_table sample_runs).
Defined.

Lemma transform_aborts_witness :
  transform all_NaT unnamed_sample = Raise AttributeError
  /\ exists e, transform all_NaT unnamed_sample = Raise e.
Proof.
  split; [by vm_compute|].
  apply (transform_aborts all_NaT unnamed_sample). right. left.
  eexists _, _. split; [reflexivity|]. split; [apply list_elem_of_here | reflexivity].
Defined.


Lemma groups_are_blocks_witness :
  exists a b c,
    rows sample_table !! 1%nat = Some a
    /\ rows sample_table !! 2%nat = Some b
    /\ rows sample_table !! 3%nat = Some c
    /\ (customer_id a = customer_id c -> customer_id b = customer_id a)
    /\ (group_key a = group_key c -> group_key b = group_key a).
Proof.
  eexists _, _, _.
  split; [reflexivity|]. split; [reflexivity|]. split; [reflexivity|].
  apply (groups_are_blocks all_NaT sample sample_table 1 2 3);
    [exact sample_runs | lia | reflexivity..].
Defined.


Lemma table_is_canonical_witness :
  transform all_NaT al_carl = Ok (table_of al_carl)
  /\ transform all_NaT carl_al = Ok (table_of carl_al)
  /\ table_of al_carl = table_of carl_al.
Proof.
  assert (transform all_NaT al_carl = Ok (table_of al_carl)) as H1
    by (vm_compute; reflexivity).
  assert (transform all_NaT carl_al = Ok (table_of carl_al)) as H2
    by (vm_compute; reflexivity).
  split; [exact H1|]. split; [exact H2|].
  eapply (table_is_canonical all_NaT al_carl carl_al _ _ _ _ H1 H2).
  - vm_compute. reflexivity.
  - vm_compute. reflexivity.
  - apply (Permutation_cons_append [_; _] _).
  - apply (bool_decide_unpack _). vm_compute. exact I.
Defined.


End CustomerDataExtractor.
